(** * Airfoil shape-optimisation scripts: callbacks and history buffers

    A shallow embedding of the glue code of [497project.py] and
    [497project_COMBO.py]: the evaluation callback [cruiseFuncs], the
    sensitivity callback [cruiseFuncsSens], the objective and constraint
    assembly [objCon] of every variant, and the hand-built linear constraint
    [first_cst_coeff_match].

    Numbers.  The functionals are Python floats, or complex numbers while the
    solver differentiates by complex step.  They are modelled by exact
    rationals: the scripts only subtract constants from them, and no property
    below depends on rounding. *)

From Stdlib Require Import QArith Lqa.
From stdpp Require Import base strings gmap list.

Open Scope string_scope.

(** ** Values held by the dictionaries *)

(** What a functional dictionary holds: a float, a complex number, the
    boolean of the ["fail"] flag, or an array (the thickness constraints). *)
Inductive value : Type :=
  | VFloat (x : Q)
  | VComplex (re im : Q)
  | VBool (b : bool)
  | VArray (xs : list Q).

Definition Q_of_bool (b : bool) : Q := if b then 1%Q else 0%Q.

(** [v - c] for a float constant [c], by the type of [v] as Python and numpy
    do it: a complex keeps its imaginary part less the constant's zero one, a
    boolean counts as 0 or 1, an array is taken element by element. *)
Definition value_sub (v : value) (c : Q) : value :=
  match v with
  | VFloat x => VFloat (x - c)
  | VComplex re im => VComplex (re - c) (im - 0)
  | VBool b => VFloat (Q_of_bool b - c)
  | VArray xs => VArray (map (fun x => (x - c)%Q) xs)
  end.

(** A functional dictionary: functional name to value. *)
Abbreviation dict := (gmap string value).

(** What the sensitivity dictionary holds: under a functional's name its
    derivatives, one array per design-variable group, and under ["fail"] a
    boolean. *)
Inductive sens : Type :=
  | SDeriv (wrt : gmap string (list Q))
  | SFail (b : bool).

Abbreviation sdict := (gmap string sens).

#[global] Instance Q_eq_dec : EqDecision Q.
Proof. solve_decision. Defined.
#[global] Instance value_eq_dec : EqDecision value.
Proof. solve_decision. Defined.

(** ** Exceptions, output and the callback monad *)

Inductive exn : Type :=
  | KeyError (key : string).

Inductive outcome (A : Type) : Type :=
  | Return (a : A)
  | Raise (e : exn).
Arguments Return {A} a.
Arguments Raise {A} e.

(** What the scripts print. *)
Inductive event : Type :=
  | PrintDesignVars (x : gmap string (list Q))
  | PrintText (s : string)
  | PrintEntry (key : string) (val : value)
  | PrintSens (key : string) (val : sens)
  | PrintFuncs (label : string) (funcs : dict).

(** The state a call of [objCon] works on: the dictionary object it was
    handed (mutated in place), the module-level history buffers [G], and the
    standard output. *)
Record state (G : Type) : Type := mkState {
  funcs : dict;
  hist : G;
  stdout : list event
}.
Arguments mkState {G} _ _ _.
Arguments funcs {G} _.
Arguments hist {G} _.
Arguments stdout {G} _.

(** A computation that may raise; what it did to the state before raising
    stays done. *)
Definition M (S A : Type) : Type := S -> outcome A * S.

Definition ret {S A} (a : A) : M S A := fun s => (Return a, s).

Definition bind {S A B} (m : M S A) (k : A -> M S B) : M S B :=
  fun s => match m s with
           | (Return a, s') => k a s'
           | (Raise e, s') => (Raise e, s')
           end.

#[global] Instance M_ret {S} : MRet (M S) := fun A => ret.
#[global] Instance M_bind {S} : MBind (M S) := fun A B k m => bind m k.

Section DictOps.
Context {G : Type}.

(** [funcs[key]] read: a missing key raises [KeyError]. *)
Definition getitem (key : string) : M (state G) value :=
  fun s => match funcs s !! key with
           | Some v => (Return v, s)
           | None => (Raise (KeyError key), s)
           end.

(** [funcs[key] = v]. *)
Definition setitem (key : string) (v : value) : M (state G) unit :=
  fun s => (Return tt, mkState (<[key := v]> (funcs s)) (hist s) (stdout s)).

(** A change of the history buffers, such as [buf.append(v)]. *)
Definition modify_hist (f : G -> G) : M (state G) unit :=
  fun s => (Return tt, mkState (funcs s) (f (hist s)) (stdout s)).

Definition print (e : event) : M (state G) unit :=
  fun s => (Return tt, mkState (funcs s) (hist s) (stdout s ++ [e])).

(** The dictionary object itself, as [return funcs] hands it back. *)
Definition the_funcs : M (state G) dict :=
  fun s => (Return (funcs s), s).
End DictOps.

(** ** The aero problem *)

(** The [AeroProblem] the scripts build, by what they use of it: its name,
    and [ap[f]] once the solver has stored the functionals: the key under
    which its [evalFunctions] stores the functional [f], that is the
    problem's name, an underscore, the functional's name.  The scripts rely
    on these very keys when [cruiseFuncsSens] prints [funcsSens["fc_cd"]] and
    the combined file's [objCon] reads [funcs["fc_cd"]].  The library itself
    is not part of the scripts; [ap[f]] as the run-time lookup it is there,
    in a table that is a parameter, comes with [ap_item] further down, and
    [ap_item_registered] ties the two. *)
Record AeroProblem : Type := mkAeroProblem {
  name : string;
  evalFuncs : list string
}.

Definition ap_getitem (p : AeroProblem) (f : string) : string :=
  name p ++ "_" ++ f.

Definition ap : AeroProblem :=
  {| name := "fc"; evalFuncs := ["cl"; "cd"; "cm"] |}.

(** ** [497project.py]: objective and constraints, SLSQP run *)

Module Single.

Definition mycl : Q := 0.5.
Definition mycm : Q := 0.03.

(** The module-level history lists. *)
Record history : Type := mkHistory {
  obj_vals_SLSQP : list value;
  cl_con_vals_SLSQP : list value;
  cm_con_vals_SLSQP : list value
}.

Definition history0 : history := mkHistory [] [] [].

Definition append_obj_vals_SLSQP (v : value) (h : history) : history :=
  mkHistory (obj_vals_SLSQP h ++ [v]) (cl_con_vals_SLSQP h) (cm_con_vals_SLSQP h).
Definition append_cl_con_vals_SLSQP (v : value) (h : history) : history :=
  mkHistory (obj_vals_SLSQP h) (cl_con_vals_SLSQP h ++ [v]) (cm_con_vals_SLSQP h).
Definition append_cm_con_vals_SLSQP (v : value) (h : history) : history :=
  mkHistory (obj_vals_SLSQP h) (cl_con_vals_SLSQP h) (cm_con_vals_SLSQP h ++ [v]).

Definition objCon (printOK : bool) : M (state history) dict :=
  cd ← getitem (ap_getitem ap "cd");
  setitem "obj" cd;;
  cl ← getitem (ap_getitem ap "cl");
  setitem ("cl_con_" ++ name ap) (value_sub cl mycl);;
  cm ← getitem (ap_getitem ap "cm");
  setitem ("cm_con_" ++ name ap) (value_sub cm mycm);;
  v ← getitem "obj";
  modify_hist (append_obj_vals_SLSQP v);;
  v ← getitem ("cl_con_" ++ name ap);
  modify_hist (append_cl_con_vals_SLSQP v);;
  v ← getitem ("cm_con_" ++ name ap);
  modify_hist (append_cm_con_vals_SLSQP v);;
  (if printOK
   then f ← the_funcs; print (PrintFuncs "funcs in obj:" f)
   else mret tt);;
  the_funcs.

End Single.

(** ** [497project_COMBO.py]: the three runs of the combined file *)

Module Combo.

(** The twelve module-level history lists of the file, four per run. *)
Record history : Type := mkHistory {
  obj_vals_SLSQP : list value;
  cl_con_vals_SLSQP : list value;
  cm_con_vals_SLSQP : list value;
  fc_cd_vals_SLSQP : list value;
  obj_vals_CONMIN : list value;
  cl_con_vals_CONMIN : list value;
  cm_con_vals_CONMIN : list value;
  fc_cd_vals_CONMIN : list value;
  obj_vals_IPOPT : list value;
  cl_con_vals_IPOPT : list value;
  cm_con_vals_IPOPT : list value;
  fc_cd_vals_IPOPT : list value
}.

Definition history0 : history :=
  mkHistory [] [] [] [] [] [] [] [] [] [] [] [].

Definition append_obj_vals_SLSQP (v : value) (h : history) : history :=
  mkHistory
    (obj_vals_SLSQP h ++ [v]) (cl_con_vals_SLSQP h) (cm_con_vals_SLSQP h) (fc_cd_vals_SLSQP h)
    (obj_vals_CONMIN h) (cl_con_vals_CONMIN h) (cm_con_vals_CONMIN h) (fc_cd_vals_CONMIN h)
    (obj_vals_IPOPT h) (cl_con_vals_IPOPT h) (cm_con_vals_IPOPT h) (fc_cd_vals_IPOPT h).
Definition append_cl_con_vals_SLSQP (v : value) (h : history) : history :=
  mkHistory
    (obj_vals_SLSQP h) (cl_con_vals_SLSQP h ++ [v]) (cm_con_vals_SLSQP h) (fc_cd_vals_SLSQP h)
    (obj_vals_CONMIN h) (cl_con_vals_CONMIN h) (cm_con_vals_CONMIN h) (fc_cd_vals_CONMIN h)
    (obj_vals_IPOPT h) (cl_con_vals_IPOPT h) (cm_con_vals_IPOPT h) (fc_cd_vals_IPOPT h).
Definition append_cm_con_vals_SLSQP (v : value) (h : history) : history :=
  mkHistory
    (obj_vals_SLSQP h) (cl_con_vals_SLSQP h) (cm_con_vals_SLSQP h ++ [v]) (fc_cd_vals_SLSQP h)
    (obj_vals_CONMIN h) (cl_con_vals_CONMIN h) (cm_con_vals_CONMIN h) (fc_cd_vals_CONMIN h)
    (obj_vals_IPOPT h) (cl_con_vals_IPOPT h) (cm_con_vals_IPOPT h) (fc_cd_vals_IPOPT h).
Definition append_fc_cd_vals_SLSQP (v : value) (h : history) : history :=
  mkHistory
    (obj_vals_SLSQP h) (cl_con_vals_SLSQP h) (cm_con_vals_SLSQP h) (fc_cd_vals_SLSQP h ++ [v])
    (obj_vals_CONMIN h) (cl_con_vals_CONMIN h) (cm_con_vals_CONMIN h) (fc_cd_vals_CONMIN h)
    (obj_vals_IPOPT h) (cl_con_vals_IPOPT h) (cm_con_vals_IPOPT h) (fc_cd_vals_IPOPT h).
Definition append_obj_vals_CONMIN (v : value) (h : history) : history :=
  mkHistory
    (obj_vals_SLSQP h) (cl_con_vals_SLSQP h) (cm_con_vals_SLSQP h) (fc_cd_vals_SLSQP h)
    (obj_vals_CONMIN h ++ [v]) (cl_con_vals_CONMIN h) (cm_con_vals_CONMIN h) (fc_cd_vals_CONMIN h)
    (obj_vals_IPOPT h) (cl_con_vals_IPOPT h) (cm_con_vals_IPOPT h) (fc_cd_vals_IPOPT h).
Definition append_cl_con_vals_CONMIN (v : value) (h : history) : history :=
  mkHistory
    (obj_vals_SLSQP h) (cl_con_vals_SLSQP h) (cm_con_vals_SLSQP h) (fc_cd_vals_SLSQP h)
    (obj_vals_CONMIN h) (cl_con_vals_CONMIN h ++ [v]) (cm_con_vals_CONMIN h) (fc_cd_vals_CONMIN h)
    (obj_vals_IPOPT h) (cl_con_vals_IPOPT h) (cm_con_vals_IPOPT h) (fc_cd_vals_IPOPT h).
Definition append_cm_con_vals_CONMIN (v : value) (h : history) : history :=
  mkHistory
    (obj_vals_SLSQP h) (cl_con_vals_SLSQP h) (cm_con_vals_SLSQP h) (fc_cd_vals_SLSQP h)
    (obj_vals_CONMIN h) (cl_con_vals_CONMIN h) (cm_con_vals_CONMIN h ++ [v]) (fc_cd_vals_CONMIN h)
    (obj_vals_IPOPT h) (cl_con_vals_IPOPT h) (cm_con_vals_IPOPT h) (fc_cd_vals_IPOPT h).
Definition append_fc_cd_vals_CONMIN (v : value) (h : history) : history :=
  mkHistory
    (obj_vals_SLSQP h) (cl_con_vals_SLSQP h) (cm_con_vals_SLSQP h) (fc_cd_vals_SLSQP h)
    (obj_vals_CONMIN h) (cl_con_vals_CONMIN h) (cm_con_vals_CONMIN h) (fc_cd_vals_CONMIN h ++ [v])
    (obj_vals_IPOPT h) (cl_con_vals_IPOPT h) (cm_con_vals_IPOPT h) (fc_cd_vals_IPOPT h).
Definition append_obj_vals_IPOPT (v : value) (h : history) : history :=
  mkHistory
    (obj_vals_SLSQP h) (cl_con_vals_SLSQP h) (cm_con_vals_SLSQP h) (fc_cd_vals_SLSQP h)
    (obj_vals_CONMIN h) (cl_con_vals_CONMIN h) (cm_con_vals_CONMIN h) (fc_cd_vals_CONMIN h)
    (obj_vals_IPOPT h ++ [v]) (cl_con_vals_IPOPT h) (cm_con_vals_IPOPT h) (fc_cd_vals_IPOPT h).
Definition append_cl_con_vals_IPOPT (v : value) (h : history) : history :=
  mkHistory
    (obj_vals_SLSQP h) (cl_con_vals_SLSQP h) (cm_con_vals_SLSQP h) (fc_cd_vals_SLSQP h)
    (obj_vals_CONMIN h) (cl_con_vals_CONMIN h) (cm_con_vals_CONMIN h) (fc_cd_vals_CONMIN h)
    (obj_vals_IPOPT h) (cl_con_vals_IPOPT h ++ [v]) (cm_con_vals_IPOPT h) (fc_cd_vals_IPOPT h).
Definition append_cm_con_vals_IPOPT (v : value) (h : history) : history :=
  mkHistory
    (obj_vals_SLSQP h) (cl_con_vals_SLSQP h) (cm_con_vals_SLSQP h) (fc_cd_vals_SLSQP h)
    (obj_vals_CONMIN h) (cl_con_vals_CONMIN h) (cm_con_vals_CONMIN h) (fc_cd_vals_CONMIN h)
    (obj_vals_IPOPT h) (cl_con_vals_IPOPT h) (cm_con_vals_IPOPT h ++ [v]) (fc_cd_vals_IPOPT h).
Definition append_fc_cd_vals_IPOPT (v : value) (h : history) : history :=
  mkHistory
    (obj_vals_SLSQP h) (cl_con_vals_SLSQP h) (cm_con_vals_SLSQP h) (fc_cd_vals_SLSQP h)
    (obj_vals_CONMIN h) (cl_con_vals_CONMIN h) (cm_con_vals_CONMIN h) (fc_cd_vals_CONMIN h)
    (obj_vals_IPOPT h) (cl_con_vals_IPOPT h) (cm_con_vals_IPOPT h) (fc_cd_vals_IPOPT h ++ [v]).

Module SLSQP.

Definition mycl : Q := 0.5.
Definition mycm : Q := 0.03.

(** Lines 143-156.  The moment residual subtracts [mycl], as line 147
    has it. *)
Definition objCon (printOK : bool) : M (state history) dict :=
  cd ← getitem (ap_getitem ap "cd");
  setitem "obj" cd;;
  cl ← getitem (ap_getitem ap "cl");
  setitem ("cl_con_" ++ name ap) (value_sub cl mycl);;
  cm ← getitem (ap_getitem ap "cm");
  setitem ("cm_con_" ++ name ap) (value_sub cm mycl);;
  v ← getitem "obj";
  modify_hist (append_obj_vals_SLSQP v);;
  v ← getitem ("cl_con_" ++ name ap);
  modify_hist (append_cl_con_vals_SLSQP v);;
  v ← getitem ("cm_con_" ++ name ap);
  modify_hist (append_cm_con_vals_SLSQP v);;
  v ← getitem "fc_cd";
  modify_hist (append_fc_cd_vals_SLSQP v);;
  (if printOK
   then f ← the_funcs; print (PrintFuncs "funcs in obj:" f)
   else mret tt);;
  the_funcs.

End SLSQP.

Module CONMIN.

Definition mycl : Q := 0.5.
Definition mycm : Q := 0.03.

(** Lines 344-357. *)
Definition objCon (printOK : bool) : M (state history) dict :=
  cd ← getitem (ap_getitem ap "cd");
  setitem "obj" cd;;
  cl ← getitem (ap_getitem ap "cl");
  setitem ("cl_con_" ++ name ap) (value_sub cl mycl);;
  cm ← getitem (ap_getitem ap "cm");
  setitem ("cm_con_" ++ name ap) (value_sub cm mycm);;
  v ← getitem "obj";
  modify_hist (append_obj_vals_CONMIN v);;
  v ← getitem ("cl_con_" ++ name ap);
  modify_hist (append_cl_con_vals_CONMIN v);;
  v ← getitem ("cm_con_" ++ name ap);
  modify_hist (append_cm_con_vals_CONMIN v);;
  v ← getitem "fc_cd";
  modify_hist (append_fc_cd_vals_CONMIN v);;
  (if printOK
   then f ← the_funcs; print (PrintFuncs "funcs in obj:" f)
   else mret tt);;
  the_funcs.

End CONMIN.

Module IPOPT.

Definition mycl : Q := 0.5.
Definition mycm : Q := 0.03.

(** Lines 540-553. *)
Definition objCon (printOK : bool) : M (state history) dict :=
  cd ← getitem (ap_getitem ap "cd");
  setitem "obj" cd;;
  cl ← getitem (ap_getitem ap "cl");
  setitem ("cl_con_" ++ name ap) (value_sub cl mycl);;
  cm ← getitem (ap_getitem ap "cm");
  setitem ("cm_con_" ++ name ap) (value_sub cm mycm);;
  v ← getitem "obj";
  modify_hist (append_obj_vals_IPOPT v);;
  v ← getitem ("cl_con_" ++ name ap);
  modify_hist (append_cl_con_vals_IPOPT v);;
  v ← getitem ("cm_con_" ++ name ap);
  modify_hist (append_cm_con_vals_IPOPT v);;
  v ← getitem "fc_cd";
  modify_hist (append_fc_cd_vals_IPOPT v);;
  (if printOK
   then f ← the_funcs; print (PrintFuncs "funcs in obj:" f)
   else mret tt);;
  the_funcs.

End IPOPT.

End Combo.


(** * Properties *)

(** ** How a call of [objCon] runs *)

Ltac run_objCon :=
  cbv [mbind M_bind mret M_ret bind ret getitem setitem modify_hist print
       the_funcs ap_getitem ap name String.append];
  cbn [funcs hist stdout];
  repeat (first
    [ rewrite lookup_insert_eq
    | rewrite lookup_insert_ne by discriminate
    | match goal with H : _ !! _ = _ |- _ => rewrite H end ];
    cbn [funcs hist stdout]).


(** *** Single.objCon *)

Definition written_Single (d : dict) (cd cl cm : value) : dict :=
  <["cm_con_fc" := value_sub cm Single.mycm]>
    (<["cl_con_fc" := value_sub cl Single.mycl]> (<["obj" := cd]> d)).

Definition appended_Single (h : Single.history) (cd cl cm : value) : Single.history :=
    Single.append_cm_con_vals_SLSQP (value_sub cm Single.mycm)
      (Single.append_cl_con_vals_SLSQP (value_sub cl Single.mycl)
         (Single.append_obj_vals_SLSQP cd h)).

Lemma objCon_returns_Single printOK (d : dict) h out cd cl cm :
  d !! "fc_cd" = Some cd -> d !! "fc_cl" = Some cl -> d !! "fc_cm" = Some cm ->
  Single.objCon printOK (mkState d h out) =
    (Return (written_Single d cd cl cm),
     mkState (written_Single d cd cl cm) (appended_Single h cd cl cm)
       (if printOK
        then out ++ [PrintFuncs "funcs in obj:" (written_Single d cd cl cm)]
        else out)).
Proof.
  intros Hcd Hcl Hcm. unfold Single.objCon, written_Single, appended_Single.
  run_objCon. destruct printOK; reflexivity.
Qed.

Lemma objCon_raises_cd_Single printOK (d : dict) h out :
  d !! "fc_cd" = None ->
  Single.objCon printOK (mkState d h out) =
    (Raise (KeyError "fc_cd"), mkState d h out).
Proof. intros Hcd. unfold Single.objCon. run_objCon. reflexivity. Qed.

Lemma objCon_raises_cl_Single printOK (d : dict) h out cd :
  d !! "fc_cd" = Some cd -> d !! "fc_cl" = None ->
  Single.objCon printOK (mkState d h out) =
    (Raise (KeyError "fc_cl"), mkState (<["obj" := cd]> d) h out).
Proof. intros Hcd Hcl. unfold Single.objCon. run_objCon. reflexivity. Qed.

Lemma objCon_raises_cm_Single printOK (d : dict) h out cd cl :
  d !! "fc_cd" = Some cd -> d !! "fc_cl" = Some cl -> d !! "fc_cm" = None ->
  Single.objCon printOK (mkState d h out) =
    (Raise (KeyError "fc_cm"),
     mkState (<["cl_con_fc" := value_sub cl Single.mycl]> (<["obj" := cd]> d)) h out).
Proof. intros Hcd Hcl Hcm. unfold Single.objCon. run_objCon. reflexivity. Qed.

(** *** Combo.SLSQP.objCon *)

Definition written_SLSQP (d : dict) (cd cl cm : value) : dict :=
  <["cm_con_fc" := value_sub cm Combo.SLSQP.mycl]>
    (<["cl_con_fc" := value_sub cl Combo.SLSQP.mycl]> (<["obj" := cd]> d)).

Definition appended_SLSQP (h : Combo.history) (cd cl cm : value) : Combo.history :=
    Combo.append_fc_cd_vals_SLSQP cd
      (Combo.append_cm_con_vals_SLSQP (value_sub cm Combo.SLSQP.mycl)
         (Combo.append_cl_con_vals_SLSQP (value_sub cl Combo.SLSQP.mycl)
            (Combo.append_obj_vals_SLSQP cd h))).

Lemma objCon_returns_SLSQP printOK (d : dict) h out cd cl cm :
  d !! "fc_cd" = Some cd -> d !! "fc_cl" = Some cl -> d !! "fc_cm" = Some cm ->
  Combo.SLSQP.objCon printOK (mkState d h out) =
    (Return (written_SLSQP d cd cl cm),
     mkState (written_SLSQP d cd cl cm) (appended_SLSQP h cd cl cm)
       (if printOK
        then out ++ [PrintFuncs "funcs in obj:" (written_SLSQP d cd cl cm)]
        else out)).
Proof.
  intros Hcd Hcl Hcm. unfold Combo.SLSQP.objCon, written_SLSQP, appended_SLSQP.
  run_objCon. destruct printOK; reflexivity.
Qed.

Lemma objCon_raises_cd_SLSQP printOK (d : dict) h out :
  d !! "fc_cd" = None ->
  Combo.SLSQP.objCon printOK (mkState d h out) =
    (Raise (KeyError "fc_cd"), mkState d h out).
Proof. intros Hcd. unfold Combo.SLSQP.objCon. run_objCon. reflexivity. Qed.

Lemma objCon_raises_cl_SLSQP printOK (d : dict) h out cd :
  d !! "fc_cd" = Some cd -> d !! "fc_cl" = None ->
  Combo.SLSQP.objCon printOK (mkState d h out) =
    (Raise (KeyError "fc_cl"), mkState (<["obj" := cd]> d) h out).
Proof. intros Hcd Hcl. unfold Combo.SLSQP.objCon. run_objCon. reflexivity. Qed.

Lemma objCon_raises_cm_SLSQP printOK (d : dict) h out cd cl :
  d !! "fc_cd" = Some cd -> d !! "fc_cl" = Some cl -> d !! "fc_cm" = None ->
  Combo.SLSQP.objCon printOK (mkState d h out) =
    (Raise (KeyError "fc_cm"),
     mkState (<["cl_con_fc" := value_sub cl Combo.SLSQP.mycl]> (<["obj" := cd]> d)) h out).
Proof. intros Hcd Hcl Hcm. unfold Combo.SLSQP.objCon. run_objCon. reflexivity. Qed.

(** *** Combo.CONMIN.objCon *)

Definition written_CONMIN (d : dict) (cd cl cm : value) : dict :=
  <["cm_con_fc" := value_sub cm Combo.CONMIN.mycm]>
    (<["cl_con_fc" := value_sub cl Combo.CONMIN.mycl]> (<["obj" := cd]> d)).

Definition appended_CONMIN (h : Combo.history) (cd cl cm : value) : Combo.history :=
    Combo.append_fc_cd_vals_CONMIN cd
      (Combo.append_cm_con_vals_CONMIN (value_sub cm Combo.CONMIN.mycm)
         (Combo.append_cl_con_vals_CONMIN (value_sub cl Combo.CONMIN.mycl)
            (Combo.append_obj_vals_CONMIN cd h))).

Lemma objCon_returns_CONMIN printOK (d : dict) h out cd cl cm :
  d !! "fc_cd" = Some cd -> d !! "fc_cl" = Some cl -> d !! "fc_cm" = Some cm ->
  Combo.CONMIN.objCon printOK (mkState d h out) =
    (Return (written_CONMIN d cd cl cm),
     mkState (written_CONMIN d cd cl cm) (appended_CONMIN h cd cl cm)
       (if printOK
        then out ++ [PrintFuncs "funcs in obj:" (written_CONMIN d cd cl cm)]
        else out)).
Proof.
  intros Hcd Hcl Hcm. unfold Combo.CONMIN.objCon, written_CONMIN, appended_CONMIN.
  run_objCon. destruct printOK; reflexivity.
Qed.

Lemma objCon_raises_cd_CONMIN printOK (d : dict) h out :
  d !! "fc_cd" = None ->
  Combo.CONMIN.objCon printOK (mkState d h out) =
    (Raise (KeyError "fc_cd"), mkState d h out).
Proof. intros Hcd. unfold Combo.CONMIN.objCon. run_objCon. reflexivity. Qed.

Lemma objCon_raises_cl_CONMIN printOK (d : dict) h out cd :
  d !! "fc_cd" = Some cd -> d !! "fc_cl" = None ->
  Combo.CONMIN.objCon printOK (mkState d h out) =
    (Raise (KeyError "fc_cl"), mkState (<["obj" := cd]> d) h out).
Proof. intros Hcd Hcl. unfold Combo.CONMIN.objCon. run_objCon. reflexivity. Qed.

Lemma objCon_raises_cm_CONMIN printOK (d : dict) h out cd cl :
  d !! "fc_cd" = Some cd -> d !! "fc_cl" = Some cl -> d !! "fc_cm" = None ->
  Combo.CONMIN.objCon printOK (mkState d h out) =
    (Raise (KeyError "fc_cm"),
     mkState (<["cl_con_fc" := value_sub cl Combo.CONMIN.mycl]> (<["obj" := cd]> d)) h out).
Proof. intros Hcd Hcl Hcm. unfold Combo.CONMIN.objCon. run_objCon. reflexivity. Qed.

(** *** Combo.IPOPT.objCon *)

Definition written_IPOPT (d : dict) (cd cl cm : value) : dict :=
  <["cm_con_fc" := value_sub cm Combo.IPOPT.mycm]>
    (<["cl_con_fc" := value_sub cl Combo.IPOPT.mycl]> (<["obj" := cd]> d)).

Definition appended_IPOPT (h : Combo.history) (cd cl cm : value) : Combo.history :=
    Combo.append_fc_cd_vals_IPOPT cd
      (Combo.append_cm_con_vals_IPOPT (value_sub cm Combo.IPOPT.mycm)
         (Combo.append_cl_con_vals_IPOPT (value_sub cl Combo.IPOPT.mycl)
            (Combo.append_obj_vals_IPOPT cd h))).

Lemma objCon_returns_IPOPT printOK (d : dict) h out cd cl cm :
  d !! "fc_cd" = Some cd -> d !! "fc_cl" = Some cl -> d !! "fc_cm" = Some cm ->
  Combo.IPOPT.objCon printOK (mkState d h out) =
    (Return (written_IPOPT d cd cl cm),
     mkState (written_IPOPT d cd cl cm) (appended_IPOPT h cd cl cm)
       (if printOK
        then out ++ [PrintFuncs "funcs in obj:" (written_IPOPT d cd cl cm)]
        else out)).
Proof.
  intros Hcd Hcl Hcm. unfold Combo.IPOPT.objCon, written_IPOPT, appended_IPOPT.
  run_objCon. destruct printOK; reflexivity.
Qed.

Lemma objCon_raises_cd_IPOPT printOK (d : dict) h out :
  d !! "fc_cd" = None ->
  Combo.IPOPT.objCon printOK (mkState d h out) =
    (Raise (KeyError "fc_cd"), mkState d h out).
Proof. intros Hcd. unfold Combo.IPOPT.objCon. run_objCon. reflexivity. Qed.

Lemma objCon_raises_cl_IPOPT printOK (d : dict) h out cd :
  d !! "fc_cd" = Some cd -> d !! "fc_cl" = None ->
  Combo.IPOPT.objCon printOK (mkState d h out) =
    (Raise (KeyError "fc_cl"), mkState (<["obj" := cd]> d) h out).
Proof. intros Hcd Hcl. unfold Combo.IPOPT.objCon. run_objCon. reflexivity. Qed.

Lemma objCon_raises_cm_IPOPT printOK (d : dict) h out cd cl :
  d !! "fc_cd" = Some cd -> d !! "fc_cl" = Some cl -> d !! "fc_cm" = None ->
  Combo.IPOPT.objCon printOK (mkState d h out) =
    (Raise (KeyError "fc_cm"),
     mkState (<["cl_con_fc" := value_sub cl Combo.IPOPT.mycl]> (<["obj" := cd]> d)) h out).
Proof. intros Hcd Hcl Hcm. unfold Combo.IPOPT.objCon. run_objCon. reflexivity. Qed.

(** *** Every call either returns or raises before it touches a buffer *)

Lemma objCon_cases_Single printOK (d : dict) h out :
  (exists cd cl cm,
      d !! "fc_cd" = Some cd /\ d !! "fc_cl" = Some cl /\ d !! "fc_cm" = Some cm /\
      Single.objCon printOK (mkState d h out) =
        (Return (written_Single d cd cl cm),
         mkState (written_Single d cd cl cm) (appended_Single h cd cl cm)
           (if printOK
            then out ++ [PrintFuncs "funcs in obj:" (written_Single d cd cl cm)]
            else out)))
  \/ (exists key d',
      key ∈ ["fc_cd"; "fc_cl"; "fc_cm"] /\ d !! key = None /\
      Single.objCon printOK (mkState d h out) =
        (Raise (KeyError key), mkState d' h out)).
Proof.
  destruct (d !! "fc_cd") as [cd|] eqn:Hcd;
    [destruct (d !! "fc_cl") as [cl|] eqn:Hcl;
      [destruct (d !! "fc_cm") as [cm|] eqn:Hcm|]|].
  - left. exists cd, cl, cm. repeat split; try done.
    by apply objCon_returns_Single.
  - right. exists "fc_cm", (<["cl_con_fc" := value_sub cl Single.mycl]> (<["obj" := cd]> d)).
    split; [set_solver|]. split; [done|]. by apply objCon_raises_cm_Single.
  - right. exists "fc_cl", (<["obj" := cd]> d).
    split; [set_solver|]. split; [done|]. by apply objCon_raises_cl_Single.
  - right. exists "fc_cd", d.
    split; [set_solver|]. split; [done|]. by apply objCon_raises_cd_Single.
Qed.

Lemma objCon_cases_SLSQP printOK (d : dict) h out :
  (exists cd cl cm,
      d !! "fc_cd" = Some cd /\ d !! "fc_cl" = Some cl /\ d !! "fc_cm" = Some cm /\
      Combo.SLSQP.objCon printOK (mkState d h out) =
        (Return (written_SLSQP d cd cl cm),
         mkState (written_SLSQP d cd cl cm) (appended_SLSQP h cd cl cm)
           (if printOK
            then out ++ [PrintFuncs "funcs in obj:" (written_SLSQP d cd cl cm)]
            else out)))
  \/ (exists key d',
      key ∈ ["fc_cd"; "fc_cl"; "fc_cm"] /\ d !! key = None /\
      Combo.SLSQP.objCon printOK (mkState d h out) =
        (Raise (KeyError key), mkState d' h out)).
Proof.
  destruct (d !! "fc_cd") as [cd|] eqn:Hcd;
    [destruct (d !! "fc_cl") as [cl|] eqn:Hcl;
      [destruct (d !! "fc_cm") as [cm|] eqn:Hcm|]|].
  - left. exists cd, cl, cm. repeat split; try done.
    by apply objCon_returns_SLSQP.
  - right. exists "fc_cm", (<["cl_con_fc" := value_sub cl Combo.SLSQP.mycl]> (<["obj" := cd]> d)).
    split; [set_solver|]. split; [done|]. by apply objCon_raises_cm_SLSQP.
  - right. exists "fc_cl", (<["obj" := cd]> d).
    split; [set_solver|]. split; [done|]. by apply objCon_raises_cl_SLSQP.
  - right. exists "fc_cd", d.
    split; [set_solver|]. split; [done|]. by apply objCon_raises_cd_SLSQP.
Qed.

Lemma objCon_cases_CONMIN printOK (d : dict) h out :
  (exists cd cl cm,
      d !! "fc_cd" = Some cd /\ d !! "fc_cl" = Some cl /\ d !! "fc_cm" = Some cm /\
      Combo.CONMIN.objCon printOK (mkState d h out) =
        (Return (written_CONMIN d cd cl cm),
         mkState (written_CONMIN d cd cl cm) (appended_CONMIN h cd cl cm)
           (if printOK
            then out ++ [PrintFuncs "funcs in obj:" (written_CONMIN d cd cl cm)]
            else out)))
  \/ (exists key d',
      key ∈ ["fc_cd"; "fc_cl"; "fc_cm"] /\ d !! key = None /\
      Combo.CONMIN.objCon printOK (mkState d h out) =
        (Raise (KeyError key), mkState d' h out)).
Proof.
  destruct (d !! "fc_cd") as [cd|] eqn:Hcd;
    [destruct (d !! "fc_cl") as [cl|] eqn:Hcl;
      [destruct (d !! "fc_cm") as [cm|] eqn:Hcm|]|].
  - left. exists cd, cl, cm. repeat split; try done.
    by apply objCon_returns_CONMIN.
  - right. exists "fc_cm", (<["cl_con_fc" := value_sub cl Combo.CONMIN.mycl]> (<["obj" := cd]> d)).
    split; [set_solver|]. split; [done|]. by apply objCon_raises_cm_CONMIN.
  - right. exists "fc_cl", (<["obj" := cd]> d).
    split; [set_solver|]. split; [done|]. by apply objCon_raises_cl_CONMIN.
  - right. exists "fc_cd", d.
    split; [set_solver|]. split; [done|]. by apply objCon_raises_cd_CONMIN.
Qed.

Lemma objCon_cases_IPOPT printOK (d : dict) h out :
  (exists cd cl cm,
      d !! "fc_cd" = Some cd /\ d !! "fc_cl" = Some cl /\ d !! "fc_cm" = Some cm /\
      Combo.IPOPT.objCon printOK (mkState d h out) =
        (Return (written_IPOPT d cd cl cm),
         mkState (written_IPOPT d cd cl cm) (appended_IPOPT h cd cl cm)
           (if printOK
            then out ++ [PrintFuncs "funcs in obj:" (written_IPOPT d cd cl cm)]
            else out)))
  \/ (exists key d',
      key ∈ ["fc_cd"; "fc_cl"; "fc_cm"] /\ d !! key = None /\
      Combo.IPOPT.objCon printOK (mkState d h out) =
        (Raise (KeyError key), mkState d' h out)).
Proof.
  destruct (d !! "fc_cd") as [cd|] eqn:Hcd;
    [destruct (d !! "fc_cl") as [cl|] eqn:Hcl;
      [destruct (d !! "fc_cm") as [cm|] eqn:Hcm|]|].
  - left. exists cd, cl, cm. repeat split; try done.
    by apply objCon_returns_IPOPT.
  - right. exists "fc_cm", (<["cl_con_fc" := value_sub cl Combo.IPOPT.mycl]> (<["obj" := cd]> d)).
    split; [set_solver|]. split; [done|]. by apply objCon_raises_cm_IPOPT.
  - right. exists "fc_cl", (<["obj" := cd]> d).
    split; [set_solver|]. split; [done|]. by apply objCon_raises_cl_IPOPT.
  - right. exists "fc_cd", d.
    split; [set_solver|]. split; [done|]. by apply objCon_raises_cd_IPOPT.
Qed.

(** ** A dictionary as [cruiseFuncs] hands it over *)

Definition sample_funcs : dict :=
  {[ "DVCon1_volume_constraint_0" := VFloat 1;
     "fc_cl" := VFloat 0.6; "fc_cd" := VFloat 0.01; "fc_cm" := VFloat 0.03;
     "fail" := VBool false ]}.

(** ** Objective and lift residual *)

(** What the claim asks of one variant's [objCon] on a dictionary [d] whose
    drag and lift entries are [cd] and [cl]: the call returns the dictionary,
    its ["obj"] entry is [cd] and its lift residual is [cl] less [mycl]. *)
Definition assembles_obj_and_lift {G} (objCon : bool -> M (state G) dict)
    (mycl : Q) (printOK : bool) (d : dict) (cd cl : value) : Prop :=
  forall (h : G) (out : list event),
    exists d' s',
      objCon printOK (mkState d h out) = (Return d', s') /\
      funcs s' = d' /\
      d' !! "obj" = Some cd /\
      d' !! ("cl_con_" ++ name ap) = Some (value_sub cl mycl).

Ltac lookup_written :=
  cbv [written_Single written_SLSQP written_CONMIN written_IPOPT
       ap_getitem ap name String.append];
  cbn [funcs];
  repeat (first [ rewrite lookup_insert_eq
                | rewrite lookup_insert_ne by discriminate ]).

(** C1: on every functional dictionary holding the keys ap["cd"], ap["cl"]
    and ap["cm"], each variant's objCon returns a dictionary whose "obj"
    entry is the cd entry and whose "cl_con_fc" entry is the cl entry minus
    mycl, and mycl is 0.5 in each variant. *)
Theorem objCon_objective_and_lift_residual
    (printOK : bool) (d : dict) (cd cl cm : value) :
  d !! ap_getitem ap "cd" = Some cd ->
  d !! ap_getitem ap "cl" = Some cl ->
  d !! ap_getitem ap "cm" = Some cm ->
  (assembles_obj_and_lift Single.objCon Single.mycl printOK d cd cl
     /\ Single.mycl = 0.5%Q) /\
  (assembles_obj_and_lift Combo.SLSQP.objCon Combo.SLSQP.mycl printOK d cd cl
     /\ Combo.SLSQP.mycl = 0.5%Q) /\
  (assembles_obj_and_lift Combo.CONMIN.objCon Combo.CONMIN.mycl printOK d cd cl
     /\ Combo.CONMIN.mycl = 0.5%Q) /\
  (assembles_obj_and_lift Combo.IPOPT.objCon Combo.IPOPT.mycl printOK d cd cl
     /\ Combo.IPOPT.mycl = 0.5%Q).
Proof.
  cbv [ap_getitem ap name String.append]. intros Hcd Hcl Hcm.
  split; [|split; [|split]]; (split; [|reflexivity]); intros h out.
  - exists (written_Single d cd cl cm). eexists.
    split; [by apply objCon_returns_Single|]. by lookup_written.
  - exists (written_SLSQP d cd cl cm). eexists.
    split; [by apply objCon_returns_SLSQP|]. by lookup_written.
  - exists (written_CONMIN d cd cl cm). eexists.
    split; [by apply objCon_returns_CONMIN|]. by lookup_written.
  - exists (written_IPOPT d cd cl cm). eexists.
    split; [by apply objCon_returns_IPOPT|]. by lookup_written.
Qed.

Lemma objCon_objective_and_lift_residual_witness :
  let d := sample_funcs in
  let cd := VFloat 0.01 in
  let cl := VFloat 0.6 in
  (d !! ap_getitem ap "cd" = Some cd /\
   d !! ap_getitem ap "cl" = Some cl /\
   d !! ap_getitem ap "cm" = Some (VFloat 0.03)) /\
  (assembles_obj_and_lift Single.objCon Single.mycl true d cd cl
     /\ Single.mycl = 0.5%Q) /\
  (assembles_obj_and_lift Combo.SLSQP.objCon Combo.SLSQP.mycl true d cd cl
     /\ Combo.SLSQP.mycl = 0.5%Q) /\
  (assembles_obj_and_lift Combo.CONMIN.objCon Combo.CONMIN.mycl true d cd cl
     /\ Combo.CONMIN.mycl = 0.5%Q) /\
  (assembles_obj_and_lift Combo.IPOPT.objCon Combo.IPOPT.mycl true d cd cl
     /\ Combo.IPOPT.mycl = 0.5%Q).
Proof.
  split; [repeat split; reflexivity|].
  apply (objCon_objective_and_lift_residual true sample_funcs
           (VFloat 0.01) (VFloat 0.6) (VFloat 0.03)); reflexivity.
Defined.

(** ** Moment residual *)

(** The three variants that subtract [mycm]: the single-run script and the
    CONMIN and IPOPT runs of the combined file. *)
Lemma objCon_moment_residual_mycm (printOK : bool) (d : dict) (cd cl cm : value) :
  d !! "fc_cd" = Some cd -> d !! "fc_cl" = Some cl -> d !! "fc_cm" = Some cm ->
  (forall h out,
      (Single.objCon printOK (mkState d h out)).1
        = Return (written_Single d cd cl cm)) /\
  (forall h out,
      (Combo.CONMIN.objCon printOK (mkState d h out)).1
        = Return (written_CONMIN d cd cl cm)) /\
  (forall h out,
      (Combo.IPOPT.objCon printOK (mkState d h out)).1
        = Return (written_IPOPT d cd cl cm)) /\
  written_Single d cd cl cm !! "cm_con_fc" = Some (value_sub cm Single.mycm) /\
  written_CONMIN d cd cl cm !! "cm_con_fc" = Some (value_sub cm Combo.CONMIN.mycm) /\
  written_IPOPT d cd cl cm !! "cm_con_fc" = Some (value_sub cm Combo.IPOPT.mycm).
Proof.
  intros Hcd Hcl Hcm. repeat split.
  - intros h out. by rewrite (objCon_returns_Single _ _ _ _ cd cl cm).
  - intros h out. by rewrite (objCon_returns_CONMIN _ _ _ _ cd cl cm).
  - intros h out. by rewrite (objCon_returns_IPOPT _ _ _ _ cd cl cm).
  - by lookup_written.
  - by lookup_written.
  - by lookup_written.
Qed.

(** The SLSQP run of the combined file subtracts [mycl] instead, on every
    input. *)
Lemma objCon_SLSQP_moment_residual_mycl (printOK : bool) (d : dict) (cd cl cm : value) h out :
  d !! "fc_cd" = Some cd -> d !! "fc_cl" = Some cl -> d !! "fc_cm" = Some cm ->
  exists d' s',
    Combo.SLSQP.objCon printOK (mkState d h out) = (Return d', s') /\
    d' !! "cm_con_fc" = Some (value_sub cm Combo.SLSQP.mycl).
Proof.
  intros Hcd Hcl Hcm. exists (written_SLSQP d cd cl cm). eexists.
  split; [by apply objCon_returns_SLSQP|]. by lookup_written.
Qed.

(** C2: the moment residual "cm_con_fc" should be the cm entry minus mycm
    (0.03) in every variant.  The SLSQP run of the combined file, on a
    dictionary whose moment coefficient is 0.03, returns the residual
    0.03 - 0.5 (it subtracts mycl), which is not 0.03 - mycm; the single-run
    script on the same dictionary returns 0.03 - mycm. *)
Theorem objCon_SLSQP_moment_residual_at_sample :
  Combo.SLSQP.mycm = 0.03%Q /\
  sample_funcs !! ap_getitem ap "cm" = Some (VFloat 0.03) /\
  (exists d' s',
      Combo.SLSQP.objCon false (mkState sample_funcs Combo.history0 [])
        = (Return d', s') /\
      d' !! "cm_con_fc" = Some (VFloat (0.03 - 0.5)) /\
      d' !! "cm_con_fc" <> Some (value_sub (VFloat 0.03) Combo.SLSQP.mycm)) /\
  (exists d' s',
      Single.objCon false (mkState sample_funcs Single.history0 [])
        = (Return d', s') /\
      d' !! "cm_con_fc" = Some (value_sub (VFloat 0.03) Single.mycm)).
Proof.
  split; [reflexivity|]. split; [reflexivity|]. split.
  - destruct (objCon_SLSQP_moment_residual_mycl false sample_funcs
                (VFloat 0.01) (VFloat 0.6) (VFloat 0.03) Combo.history0 [])
      as (d' & s' & Hrun & Hcm); try reflexivity.
    exists d', s'. split; [exact Hrun|]. rewrite Hcm.
    split; [reflexivity|]. discriminate.
  - exists (written_Single sample_funcs (VFloat 0.01) (VFloat 0.6) (VFloat 0.03)).
    eexists. split; [by apply objCon_returns_Single|]. by lookup_written.
Qed.

(** ** What [objCon] leaves alone *)

(** The keys [objCon] assigns to. *)
Definition written_keys : list string :=
  ["obj"; "cl_con_" ++ name ap; "cm_con_" ++ name ap].

(** The frame property read to the letter: every key-value pair of the input
    is still there, unchanged, in the returned dictionary. *)
Definition keeps_every_entry {G} (objCon : bool -> M (state G) dict) : Prop :=
  forall printOK (d : dict) (h : G) out d' s',
    is_Some (d !! ap_getitem ap "cd") ->
    is_Some (d !! ap_getitem ap "cl") ->
    is_Some (d !! ap_getitem ap "cm") ->
    objCon printOK (mkState d h out) = (Return d', s') ->
    forall key v, d !! key = Some v -> d' !! key = Some v.

(** The frame property the code has: the call returns the dictionary object
    it was given; outside the three written keys every lookup answers as
    before; the keys are the old ones and the three written ones. *)
Definition writes_only_written_keys {G} (objCon : bool -> M (state G) dict)
    (printOK : bool) (d : dict) : Prop :=
  forall (h : G) out,
    exists d' s',
      objCon printOK (mkState d h out) = (Return d', s') /\
      funcs s' = d' /\
      (forall key, key ∉ written_keys -> d' !! key = d !! key) /\
      dom d' = dom d ∪ list_to_set written_keys.

(** A dictionary that already carries an ["obj"] entry, as one that went
    through [objCon] before does. *)
Definition stale_funcs : dict := <["obj" := VFloat 7]> sample_funcs.

Lemma written_frame (d : dict) (vo vl vm : value) :
  let d' := <["cm_con_fc" := vm]> (<["cl_con_fc" := vl]> (<["obj" := vo]> d)) in
  (forall key, key ∉ written_keys -> d' !! key = d !! key) /\
  dom d' = dom d ∪ list_to_set written_keys.
Proof.
  cbv [written_keys ap name String.append]. split.
  - intros key Hkey. rewrite !lookup_insert_ne; [done|..];
      intros <-; apply Hkey; repeat constructor.
  - rewrite !dom_insert_L. apply set_eq. intros key.
    rewrite !elem_of_union, !elem_of_singleton, !elem_of_list_to_set,
      !elem_of_cons, elem_of_nil. tauto.
Qed.

(** C5, as amended: on every dictionary holding the required keys, each
    variant's objCon returns the dictionary it was given, in which every
    entry under a key other than "obj", "cl_con_fc" and "cm_con_fc" is
    present unchanged, and whose keys are those of the input together with
    these three: the three entries are the only ones objCon writes. *)
Theorem objCon_writes_only_three_entries
    (printOK : bool) (d : dict) (cd cl cm : value) :
  d !! ap_getitem ap "cd" = Some cd ->
  d !! ap_getitem ap "cl" = Some cl ->
  d !! ap_getitem ap "cm" = Some cm ->
  writes_only_written_keys Single.objCon printOK d /\
  writes_only_written_keys Combo.SLSQP.objCon printOK d /\
  writes_only_written_keys Combo.CONMIN.objCon printOK d /\
  writes_only_written_keys Combo.IPOPT.objCon printOK d.
Proof.
  cbv [ap_getitem ap name String.append]. intros Hcd Hcl Hcm.
  split; [|split; [|split]]; intros h out.
  - exists (written_Single d cd cl cm). eexists.
    split; [by apply objCon_returns_Single|]. split; [done|]. apply written_frame.
  - exists (written_SLSQP d cd cl cm). eexists.
    split; [by apply objCon_returns_SLSQP|]. split; [done|]. apply written_frame.
  - exists (written_CONMIN d cd cl cm). eexists.
    split; [by apply objCon_returns_CONMIN|]. split; [done|]. apply written_frame.
  - exists (written_IPOPT d cd cl cm). eexists.
    split; [by apply objCon_returns_IPOPT|]. split; [done|]. apply written_frame.
Qed.

Lemma objCon_writes_only_three_entries_witness :
  (sample_funcs !! ap_getitem ap "cd" = Some (VFloat 0.01) /\
   sample_funcs !! ap_getitem ap "cl" = Some (VFloat 0.6) /\
   sample_funcs !! ap_getitem ap "cm" = Some (VFloat 0.03)) /\
  writes_only_written_keys Single.objCon true sample_funcs /\
  writes_only_written_keys Combo.SLSQP.objCon true sample_funcs /\
  writes_only_written_keys Combo.CONMIN.objCon true sample_funcs /\
  writes_only_written_keys Combo.IPOPT.objCon true sample_funcs.
Proof.
  split; [repeat split; reflexivity|].
  apply (objCon_writes_only_three_entries true sample_funcs
           (VFloat 0.01) (VFloat 0.6) (VFloat 0.03)); reflexivity.
Defined.

(** C5, as stated, fails: a dictionary that holds the required keys and an
    "obj" entry of 7 comes back with "obj" equal to its drag coefficient
    0.01, so not every key-value pair of the input is kept. *)
Lemma objCon_overwrites_obj_entry :
  stale_funcs !! "obj" = Some (VFloat 7) /\
  (exists d' s',
      Single.objCon false (mkState stale_funcs Single.history0 [])
        = (Return d', s') /\
      d' !! "obj" = Some (VFloat 0.01)) /\
  ~ keeps_every_entry Single.objCon.
Proof.
  assert (Hrun : Single.objCon false (mkState stale_funcs Single.history0 []) =
    (Return (written_Single stale_funcs (VFloat 0.01) (VFloat 0.6) (VFloat 0.03)),
     mkState (written_Single stale_funcs (VFloat 0.01) (VFloat 0.6) (VFloat 0.03))
       (appended_Single Single.history0 (VFloat 0.01) (VFloat 0.6) (VFloat 0.03))
       [])).
  { by apply objCon_returns_Single. }
  split; [reflexivity|]. split.
  - eexists _, _. split; [exact Hrun|]. by lookup_written.
  - intros Hkeep.
    specialize (Hkeep false stale_funcs Single.history0 [] _ _
                  (ltac:(by eexists)) (ltac:(by eexists)) (ltac:(by eexists))
                  Hrun "obj" (VFloat 7) eq_refl).
    revert Hkeep. lookup_written. discriminate.
Qed.

(** ** The debug switch *)

(** Two runs that differ in [printOK] only: same outcome (the returned
    dictionary, or the exception), same dictionary object, same history
    buffers.  The output is the one thing that may differ. *)
Definition printOK_only_prints {G} (objCon : bool -> M (state G) dict)
    (d : dict) : Prop :=
  forall (h : G) out,
    let on := objCon true (mkState d h out) in
    let off := objCon false (mkState d h out) in
    on.1 = off.1 /\ funcs on.2 = funcs off.2 /\ hist on.2 = hist off.2.

Ltac by_cases_on_keys d :=
  let Hcd := fresh "Hcd" in
  let Hcl := fresh "Hcl" in
  let Hcm := fresh "Hcm" in
  destruct (d !! "fc_cd") as [?cd|] eqn:Hcd;
    [destruct (d !! "fc_cl") as [?cl|] eqn:Hcl;
      [destruct (d !! "fc_cm") as [?cm|] eqn:Hcm|]|].

(** C6: printOK influences the debug print only; for every functional
    dictionary and every state of the buffers, the run with printOK true and
    the run with printOK false end alike (both return equal dictionaries, or
    both raise the same exception) and leave equal history buffers, in every
    variant. *)
Theorem objCon_printOK_only_prints (d : dict) :
  printOK_only_prints Single.objCon d /\
  printOK_only_prints Combo.SLSQP.objCon d /\
  printOK_only_prints Combo.CONMIN.objCon d /\
  printOK_only_prints Combo.IPOPT.objCon d.
Proof.
  split; [|split; [|split]]; intros h out; by_cases_on_keys d.
  - by rewrite !(objCon_returns_Single _ d h out cd cl cm).
  - by rewrite !(objCon_raises_cm_Single _ d h out cd cl).
  - by rewrite !(objCon_raises_cl_Single _ d h out cd).
  - by rewrite !(objCon_raises_cd_Single _ d h out).
  - by rewrite !(objCon_returns_SLSQP _ d h out cd cl cm).
  - by rewrite !(objCon_raises_cm_SLSQP _ d h out cd cl).
  - by rewrite !(objCon_raises_cl_SLSQP _ d h out cd).
  - by rewrite !(objCon_raises_cd_SLSQP _ d h out).
  - by rewrite !(objCon_returns_CONMIN _ d h out cd cl cm).
  - by rewrite !(objCon_raises_cm_CONMIN _ d h out cd cl).
  - by rewrite !(objCon_raises_cl_CONMIN _ d h out cd).
  - by rewrite !(objCon_raises_cd_CONMIN _ d h out).
  - by rewrite !(objCon_returns_IPOPT _ d h out cd cl cm).
  - by rewrite !(objCon_raises_cm_IPOPT _ d h out cd cl).
  - by rewrite !(objCon_raises_cl_IPOPT _ d h out cd).
  - by rewrite !(objCon_raises_cd_IPOPT _ d h out).
Qed.

(** The switch is not idle: with it on, a returning call prints the
    dictionary once. *)
Lemma objCon_printOK_prints_Single (d : dict) h out cd cl cm :
  d !! "fc_cd" = Some cd -> d !! "fc_cl" = Some cl -> d !! "fc_cm" = Some cm ->
  stdout (Single.objCon true (mkState d h out)).2
    = (stdout (Single.objCon false (mkState d h out)).2
         ++ [PrintFuncs "funcs in obj:" (written_Single d cd cl cm)])%list.
Proof.
  intros Hcd Hcl Hcm. by rewrite !(objCon_returns_Single _ d h out cd cl cm).
Qed.

(** ** History buffers *)

(** The history buffers of each variant, in the order of its appends. *)
Definition buffers_Single (h : Single.history) : list (list value) :=
  [Single.obj_vals_SLSQP h; Single.cl_con_vals_SLSQP h;
   Single.cm_con_vals_SLSQP h].

Definition buffers_SLSQP (h : Combo.history) : list (list value) :=
  [Combo.obj_vals_SLSQP h; Combo.cl_con_vals_SLSQP h;
   Combo.cm_con_vals_SLSQP h; Combo.fc_cd_vals_SLSQP h].

Definition buffers_CONMIN (h : Combo.history) : list (list value) :=
  [Combo.obj_vals_CONMIN h; Combo.cl_con_vals_CONMIN h;
   Combo.cm_con_vals_CONMIN h; Combo.fc_cd_vals_CONMIN h].

Definition buffers_IPOPT (h : Combo.history) : list (list value) :=
  [Combo.obj_vals_IPOPT h; Combo.cl_con_vals_IPOPT h;
   Combo.cm_con_vals_IPOPT h; Combo.fc_cd_vals_IPOPT h].

(** [after] is [before] with exactly one value appended. *)
Definition one_more (after before : list value) : Prop :=
  exists v, after = (before ++ [v])%list.

(** What one call does to a variant's buffers: a call that returns appends
    exactly one value to each of them; a call that raises leaves the whole
    history as it was. *)
Definition appends_once {G} (objCon : bool -> M (state G) dict)
    (buffers : G -> list (list value)) : Prop :=
  forall printOK (d : dict) (h : G) out,
    match objCon printOK (mkState d h out) with
    | (Return _, s') => Forall2 one_more (buffers (hist s')) (buffers h)
    | (Raise _, s') => hist s' = h
    end.

Ltac one_more_each :=
  repeat (constructor; [by eexists|]); constructor.

Lemma objCon_appends_once_Single : appends_once Single.objCon buffers_Single.
Proof.
  intros printOK d h out.
  destruct (objCon_cases_Single printOK d h out)
    as [(cd & cl & cm & _ & _ & _ & ->)|(key & d' & _ & _ & ->)]; [|done].
  cbv [hist appended_Single buffers_Single Single.append_obj_vals_SLSQP
       Single.append_cl_con_vals_SLSQP Single.append_cm_con_vals_SLSQP].
  cbn. one_more_each.
Qed.

Lemma objCon_appends_once_SLSQP : appends_once Combo.SLSQP.objCon buffers_SLSQP.
Proof.
  intros printOK d h out.
  destruct (objCon_cases_SLSQP printOK d h out)
    as [(cd & cl & cm & _ & _ & _ & ->)|(key & d' & _ & _ & ->)]; [|done].
  cbv [hist appended_SLSQP buffers_SLSQP Combo.append_obj_vals_SLSQP
       Combo.append_cl_con_vals_SLSQP Combo.append_cm_con_vals_SLSQP Combo.append_fc_cd_vals_SLSQP].
  cbn. one_more_each.
Qed.

Lemma objCon_appends_once_CONMIN : appends_once Combo.CONMIN.objCon buffers_CONMIN.
Proof.
  intros printOK d h out.
  destruct (objCon_cases_CONMIN printOK d h out)
    as [(cd & cl & cm & _ & _ & _ & ->)|(key & d' & _ & _ & ->)]; [|done].
  cbv [hist appended_CONMIN buffers_CONMIN Combo.append_obj_vals_CONMIN
       Combo.append_cl_con_vals_CONMIN Combo.append_cm_con_vals_CONMIN Combo.append_fc_cd_vals_CONMIN].
  cbn. one_more_each.
Qed.

Lemma objCon_appends_once_IPOPT : appends_once Combo.IPOPT.objCon buffers_IPOPT.
Proof.
  intros printOK d h out.
  destruct (objCon_cases_IPOPT printOK d h out)
    as [(cd & cl & cm & _ & _ & _ & ->)|(key & d' & _ & _ & ->)]; [|done].
  cbv [hist appended_IPOPT buffers_IPOPT Combo.append_obj_vals_IPOPT
       Combo.append_cl_con_vals_IPOPT Combo.append_cm_con_vals_IPOPT Combo.append_fc_cd_vals_IPOPT].
  cbn. one_more_each.
Qed.

Section Runs.
Context {G : Type}.
Variable objCon : bool -> M (state G) dict.
Variable buffers : G -> list (list value).

(** The optimiser calls [objCon] over and over, each time on the dictionary
    of that evaluation and with its own [printOK]; the history lists and
    the output live on from call to call.  The result is the last history,
    the output, and the number of calls that completed (returned). *)
Fixpoint run_calls (calls : list (dict * bool)) (h : G) (out : list event)
    : G * list event * nat :=
  match calls with
  | [] => (h, out, 0)
  | (d, printOK) :: rest =>
      match objCon printOK (mkState d h out) with
      | (Return _, s') =>
          let '(h', out', n) := run_calls rest (hist s') (stdout s') in
          (h', out', S n)
      | (Raise _, s') => run_calls rest (hist s') (stdout s')
      end
  end.

Definition final_hist (r : G * list event * nat) : G := r.1.1.
Definition completed (r : G * list event * nat) : nat := r.2.

Hypothesis step : appends_once objCon buffers.

Lemma run_calls_grows calls : forall h out,
  Forall2 (fun after before => length after = length before + completed (run_calls calls h out))
    (buffers (final_hist (run_calls calls h out))) (buffers h).
Proof.
  induction calls as [|[d printOK] rest IH]; intros h out; cbn.
  - apply Forall_Forall2_diag, Forall_forall. intros b _. lia.
  - specialize (step printOK d h out).
    destruct (objCon printOK (mkState d h out)) as [[d'|e] s'].
    + specialize (IH (hist s') (stdout s')).
      destruct (run_calls rest (hist s') (stdout s')) as [[h' out'] n].
      unfold final_hist, completed in *; cbn in *.
      revert IH step. generalize (buffers h'), (buffers (hist s')), (buffers h).
      intros l3 l2 l1 H32 H21. revert l3 H32.
      induction H21 as [|b2 b1 l2 l1 [v ->] _ IH21]; intros l3 H32;
        inversion H32 as [|b3 ? l3' ? Hb Hl]; subst; constructor.
      * rewrite Hb, length_app. cbn. lia.
      * by apply IH21.
    + subst. apply IH.
Qed.
End Runs.

(** After a run from the empty lists of the module's start, every buffer is
    as long as the number of completed calls. *)
Definition lengths_follow_calls {G} (objCon : bool -> M (state G) dict)
    (buffers : G -> list (list value)) (history0 : G)
    (calls : list (dict * bool)) : Prop :=
  let r := run_calls objCon calls history0 [] in
  Forall (fun b => length b = completed r) (buffers (final_hist r)).

Lemma lengths_from_empty {G} (objCon : bool -> M (state G) dict)
    (buffers : G -> list (list value)) (history0 : G) calls :
  appends_once objCon buffers ->
  Forall (fun b => b = []) (buffers history0) ->
  lengths_follow_calls objCon buffers history0 calls.
Proof.
  intros Hstep Hempty. unfold lengths_follow_calls. cbn zeta.
  pose proof (run_calls_grows objCon buffers Hstep calls history0 []) as Hgrow.
  revert Hgrow Hempty.
  generalize (completed (run_calls objCon calls history0 [])).
  generalize (buffers (final_hist (run_calls objCon calls history0 []))).
  generalize (buffers history0).
  intros before after n Hgrow. induction Hgrow as [|a b after before Hab _ IH];
    intros Hempty; [constructor|].
  inversion Hempty as [|? ? Hb Hrest]; subst. constructor.
  - by rewrite Hab.
  - by apply IH.
Qed.

(** Three evaluations, the second on a dictionary without the functionals:
    two calls complete and each buffer of the CONMIN run holds two values. *)
Example run_calls_CONMIN_three :
  let r := run_calls Combo.CONMIN.objCon
             [(sample_funcs, true); (∅, false); (sample_funcs, false)]
             Combo.history0 [] in
  completed r = 2 /\
  buffers_CONMIN (final_hist r)
    = [ [VFloat 0.01; VFloat 0.01];
        [VFloat (0.6 - 0.5); VFloat (0.6 - 0.5)];
        [VFloat (0.03 - 0.03); VFloat (0.03 - 0.03)];
        [VFloat 0.01; VFloat 0.01] ] /\
  buffers_SLSQP (final_hist r) = [ []; []; []; [] ].
Proof. vm_compute. repeat split. Qed.

(** ** Errors and the buffers of the combined file *)

(** Dictionaries with the three functionals under their [ap] keys and
    without the key ["fc_cd"]. *)
Definition has_functionals_but_no_fc_cd (d : dict) : Prop :=
  is_Some (d !! ap_getitem ap "cd") /\
  is_Some (d !! ap_getitem ap "cl") /\
  is_Some (d !! ap_getitem ap "cm") /\
  d !! "fc_cd" = None.

(** Non-atomic updates: some call raises after it has changed the history. *)
Definition raises_after_appending {G} (objCon : bool -> M (state G) dict) : Prop :=
  exists printOK (d : dict) (h : G) out e s',
    objCon printOK (mkState d h out) = (Raise e, s') /\ hist s' <> h.

(** Atomic updates: a call raises only a [KeyError] for one of the three
    functionals, missing from its input, and then the whole history is as
    before; a call that returns had ["fc_cd"] and has appended one value to
    each buffer. *)
Definition raises_before_appending {G} (objCon : bool -> M (state G) dict)
    (buffers : G -> list (list value)) : Prop :=
  forall printOK (d : dict) (h : G) out,
    match objCon printOK (mkState d h out) with
    | (Raise e, s') =>
        hist s' = h /\
        exists key,
          e = KeyError key /\
          key ∈ [ap_getitem ap "cd"; ap_getitem ap "cl"; ap_getitem ap "cm"] /\
          d !! key = None
    | (Return _, s') =>
        is_Some (d !! "fc_cd") /\
        Forall2 one_more (buffers (hist s')) (buffers h)
    end.

Lemma raises_before_appending_atomic {G} (objCon : bool -> M (state G) dict) buffers :
  raises_before_appending objCon buffers -> ~ raises_after_appending objCon.
Proof.
  intros Hatomic (printOK & d & h & out & e & s' & Hrun & Hhist).
  specialize (Hatomic printOK d h out). rewrite Hrun in Hatomic.
  by destruct Hatomic.
Qed.

Lemma objCon_atomic_SLSQP :
  raises_before_appending Combo.SLSQP.objCon buffers_SLSQP.
Proof.
  intros printOK d h out.
  pose proof (objCon_appends_once_SLSQP printOK d h out) as Hstep.
  destruct (objCon_cases_SLSQP printOK d h out)
    as [(cd & cl & cm & Hcd & _ & _ & Hrun)|(key & d' & Hkey & Hnone & Hrun)];
    rewrite Hrun in *; [by split; [eexists|]|].
  split; [done|]. by exists key.
Qed.

Lemma objCon_atomic_CONMIN :
  raises_before_appending Combo.CONMIN.objCon buffers_CONMIN.
Proof.
  intros printOK d h out.
  pose proof (objCon_appends_once_CONMIN printOK d h out) as Hstep.
  destruct (objCon_cases_CONMIN printOK d h out)
    as [(cd & cl & cm & Hcd & _ & _ & Hrun)|(key & d' & Hkey & Hnone & Hrun)];
    rewrite Hrun in *; [by split; [eexists|]|].
  split; [done|]. by exists key.
Qed.

Lemma objCon_atomic_IPOPT :
  raises_before_appending Combo.IPOPT.objCon buffers_IPOPT.
Proof.
  intros printOK d h out.
  pose proof (objCon_appends_once_IPOPT printOK d h out) as Hstep.
  destruct (objCon_cases_IPOPT printOK d h out)
    as [(cd & cl & cm & Hcd & _ & _ & Hrun)|(key & d' & Hkey & Hnone & Hrun)];
    rewrite Hrun in *; [by split; [eexists|]|].
  split; [done|]. by exists key.
Qed.

(** With the keys the solver registers ([ap["cd"]] is ["fc_cd"]) the three
    objCon functions of the combined file raise only a KeyError for a
    missing functional, read before the first append, so a call that raises
    leaves every history buffer unchanged, and a call that gets past the
    three reads returns, having appended one value to each of its four
    buffers. *)
Theorem objCon_Combo_raises_before_appending :
  raises_before_appending Combo.SLSQP.objCon buffers_SLSQP /\
  raises_before_appending Combo.CONMIN.objCon buffers_CONMIN /\
  raises_before_appending Combo.IPOPT.objCon buffers_IPOPT.
Proof.
  split; [exact objCon_atomic_SLSQP|].
  split; [exact objCon_atomic_CONMIN|exact objCon_atomic_IPOPT].
Qed.

(** With the keys the solver registers, no dictionary holds ap["cd"],
    ap["cl"] and ap["cm"] and lacks "fc_cd", and no call of an objCon of the
    combined file raises after a buffer has changed.  What happens under
    other keys is settled with the run-time lookup further down. *)
Lemma objCon_Combo_never_raises_after_appending :
  ap_getitem ap "cd" = "fc_cd" /\
  ~ (exists d : dict, has_functionals_but_no_fc_cd d) /\
  ~ raises_after_appending Combo.SLSQP.objCon /\
  ~ raises_after_appending Combo.CONMIN.objCon /\
  ~ raises_after_appending Combo.IPOPT.objCon.
Proof.
  split; [reflexivity|]. split.
  - intros (d & [cd Hcd] & _ & _ & Hnone).
    change (ap_getitem ap "cd") with "fc_cd" in Hcd. congruence.
  - split; [|split].
    + exact (raises_before_appending_atomic _ _ objCon_atomic_SLSQP).
    + exact (raises_before_appending_atomic _ _ objCon_atomic_CONMIN).
    + exact (raises_before_appending_atomic _ _ objCon_atomic_IPOPT).
Qed.

(** ** The linear constraint [first_cst_coeff_match] *)

(** A design-variable vector: group name to the group's numbers. *)
Abbreviation DesignVars := (gmap string (list Q)).

Abbreviation matrix := (list (list Q)).

Definition nCoeff : nat := 4.

(** [np.zeros((rows, cols))]. *)
Definition np_zeros (rows cols : nat) : matrix :=
  replicate rows (replicate cols 0%Q).

(** [m[i, j] = v]; numpy raises [IndexError] outside the array, here [None]. *)
Definition np_setitem (m : matrix) (i j : nat) (v : Q) : option matrix :=
  match m !! i with
  | Some row =>
      if decide (j < length row) then Some (<[i := <[j := v]> row]> m) else None
  | None => None
  end.

(** A constraint as it is declared to the optimisation problem. *)
Record Constraint : Type := mkConstraint {
  con_name : string;
  con_lower : Q;
  con_upper : Q;
  con_linear : bool;
  con_wrt : list string;
  con_jac : gmap string matrix
}.

(** Lines 183-192: the Jacobian is built, then the constraint is added with
    that one array for both groups. *)
Definition first_cst_coeff_match : option Constraint :=
  jac ← np_setitem (np_zeros 1 nCoeff) 0 0 1.0%Q;
  Some {| con_name := "first_cst_coeff_match";
          con_lower := 0.0;
          con_upper := 0.0;
          con_linear := true;
          con_wrt := ["upper_shape"; "lower_shape"];
          con_jac := {[ "upper_shape" := jac; "lower_shape" := jac ]} |}.

Definition dot (row x : list Q) : Q :=
  foldr Qplus 0%Q (zip_with Qmult row x).

Definition mat_vec (m : matrix) (x : list Q) : list Q :=
  map (fun row => dot row x) m.

(** The value of a linear constraint, as the optimiser defines it: the sum,
    over the groups the constraint is taken with respect to, of the group's
    Jacobian block times the group's variables.  A block and its group must
    agree in size. *)
Fixpoint linear_value_from (groups : list string) (jac : gmap string matrix)
    (x : DesignVars) (acc : list Q) : option (list Q) :=
  match groups with
  | [] => Some acc
  | g :: rest =>
      J ← jac !! g;
      xg ← x !! g;
      if decide (Forall (fun row => length row = length xg) J
                 /\ length J = length acc)
      then linear_value_from rest jac x (zip_with Qplus acc (mat_vec J xg))
      else None
  end.

Definition linear_value (c : Constraint) (x : DesignVars) : option (list Q) :=
  match con_wrt c with
  | [] => Some []
  | g :: _ =>
      J ← con_jac c !! g;
      linear_value_from (con_wrt c) (con_jac c) x (replicate (length J) 0%Q)
  end.

(** C4: the constraint "first_cst_coeff_match" is declared linear, with
    lower and upper bound 0.0 and, for both upper_shape and lower_shape, the
    1-by-nCoeff Jacobian whose only non-zero entry is a 1.0 in the first
    column; so for coefficient vectors u and l of length nCoeff its value is
    u[0] + l[0]. *)
Theorem first_cst_coeff_match_sums_first_coefficients
    (x : DesignVars) (u l : list Q) :
  x !! "upper_shape" = Some u -> length u = nCoeff ->
  x !! "lower_shape" = Some l -> length l = nCoeff ->
  exists c,
    first_cst_coeff_match = Some c /\
    con_lower c = 0.0%Q /\ con_upper c = 0.0%Q /\ con_linear c = true /\
    con_wrt c = ["upper_shape"; "lower_shape"] /\
    con_jac c !! "upper_shape" = Some [[1.0; 0; 0; 0]%Q] /\
    con_jac c !! "lower_shape" = Some [[1.0; 0; 0; 0]%Q] /\
    exists u0 l0 v,
      u !! 0 = Some u0 /\ l !! 0 = Some l0 /\
      linear_value c x = Some [v] /\ (v == u0 + l0)%Q.
Proof.
  intros Hu Hlu Hl Hll.
  destruct u as [|u0 [|u1 [|u2 [|u3 [|]]]]]; try discriminate Hlu.
  destruct l as [|l0 [|l1 [|l2 [|l3 [|]]]]]; try discriminate Hll.
  eexists. split; [reflexivity|]. cbn [con_lower con_upper con_linear con_wrt con_jac].
  do 6 (split; [reflexivity|]).
  exists u0, l0. eexists. split; [reflexivity|]. split; [reflexivity|].
  unfold linear_value. cbn [con_wrt con_jac].
  rewrite lookup_insert_eq. cbn [mbind option_bind length replicate linear_value_from].
  rewrite lookup_insert_eq, Hu. cbn [mbind option_bind].
  rewrite decide_True by (split; [by repeat constructor|done]).
  rewrite lookup_insert_ne by discriminate. rewrite lookup_singleton_eq, Hl.
  cbn [mbind option_bind].
  rewrite decide_True by (split; [by repeat constructor|done]).
  split; [reflexivity|]. cbn. ring.
Qed.

Lemma first_cst_coeff_match_sums_first_coefficients_witness :
  let x : DesignVars :=
    {[ "alpha" := [1.0%Q];
       "upper_shape" := [0.2; 0.3; 0.25; 0.2]%Q;
       "lower_shape" := [-0.2; -0.1; -0.1; -0.05]%Q ]} in
  exists c,
    first_cst_coeff_match = Some c /\
    con_lower c = 0.0%Q /\ con_upper c = 0.0%Q /\ con_linear c = true /\
    con_wrt c = ["upper_shape"; "lower_shape"] /\
    con_jac c !! "upper_shape" = Some [[1.0; 0; 0; 0]%Q] /\
    con_jac c !! "lower_shape" = Some [[1.0; 0; 0; 0]%Q] /\
    exists u0 l0 v,
      [0.2; 0.3; 0.25; 0.2]%Q !! 0 = Some u0 /\
      [-0.2; -0.1; -0.1; -0.05]%Q !! 0 = Some l0 /\
      linear_value c x = Some [v] /\ (v == u0 + l0)%Q.
Proof.
  apply (first_cst_coeff_match_sums_first_coefficients _
           [0.2; 0.3; 0.25; 0.2]%Q [-0.2; -0.1; -0.1; -0.05]%Q); reflexivity.
Defined.

(** ** The evaluation and sensitivity callbacks *)

(** The state the callbacks run in: the library objects behind the globals
    [DVGeo], [ap], [CFDSolver] and [DVCon], and the standard output. *)
Record env (World : Type) : Type := mkEnv {
  world : World;
  output : list event
}.
Arguments mkEnv {World} _ _.
Arguments world {World} _.
Arguments output {World} _.

Section Callbacks.
(** The libraries are taken as they are called: each call may change the
    library objects, and an evaluator fills the dictionary it is handed.
    The scripts catch no exception, so one raised inside a library leaves
    the callback as it came; the calls are modelled as they return. *)
Variable World : Type.
Variable DVGeo_setDesignVars : DesignVars -> World -> World.
Variable ap_setDesignVars : DesignVars -> World -> World.
Variable CFDSolver_call : World -> World.
Variable DVCon_evalFunctions : dict -> World -> dict * World.
Variable CFDSolver_evalFunctions : dict -> World -> dict * World.
Variable CFDSolver_checkSolutionFailure : dict -> World -> dict * World.
Variable DVCon_evalFunctionsSens : sdict -> World -> sdict * World.
Variable CFDSolver_evalFunctionsSens : sdict -> World -> sdict * World.
Variable CFDSolver_checkAdjointFailure : sdict -> World -> sdict * World.
(** [MPI.COMM_WORLD.rank]. *)
Variable rank : nat.

Definition call (f : World -> World) : M (env World) unit :=
  fun s => (Return tt, mkEnv (f (world s)) (output s)).

Definition fill {D : Type} (f : D -> World -> D * World) (d : D)
    : M (env World) D :=
  fun s => (Return (f d (world s)).1, mkEnv (f d (world s)).2 (output s)).

Definition say (e : event) : M (env World) unit :=
  fun s => (Return tt, mkEnv (world s) (output s ++ [e])%list).

Definition raise {A : Type} (e : exn) : M (env World) A :=
  fun s => (Raise e, s).

(** The loop over [funcs.items()], which skips the thickness array. *)
Fixpoint print_items (items : list (string * value)) : M (env World) unit :=
  match items with
  | [] => mret tt
  | (key, val) :: rest =>
      (if decide (key = "DVCon1_thickness_constraints_0")
       then mret tt
       else say (PrintEntry key val));;
      print_items rest
  end.

(** Lines 106-124 of [497project.py]; the three sections of the combined
    file repeat the function word for word. *)
Definition cruiseFuncs (x : DesignVars) : M (env World) dict :=
  say (PrintDesignVars x);;
  call (DVGeo_setDesignVars x);;
  call (ap_setDesignVars x);;
  call CFDSolver_call;;
  funcs ← mret ∅;
  funcs ← fill DVCon_evalFunctions funcs;
  funcs ← fill CFDSolver_evalFunctions funcs;
  funcs ← fill CFDSolver_checkSolutionFailure funcs;
  (if decide (rank = 0)
   then say (PrintText "functions:");; print_items (map_to_list funcs)
   else mret tt);;
  mret funcs.

(** The loop over [evalFunc], which reads [funcsSens[var]]. *)
Fixpoint print_sens (vars : list string) (funcsSens : sdict)
    : M (env World) unit :=
  match vars with
  | [] => mret tt
  | var :: rest =>
      match funcsSens !! var with
      | Some val => say (PrintSens var val)
      | None => raise (KeyError var)
      end;;
      print_sens rest funcsSens
  end.

(** Lines 127-136 of [497project.py]; again the same in every section of
    the combined file. *)
Definition cruiseFuncsSens (x : DesignVars) (funcs : dict)
    : M (env World) sdict :=
  funcsSens ← mret ∅;
  funcsSens ← fill DVCon_evalFunctionsSens funcsSens;
  funcsSens ← fill CFDSolver_evalFunctionsSens funcsSens;
  funcsSens ← fill CFDSolver_checkAdjointFailure funcsSens;
  say (PrintText "function sensitivities:");;
  let evalFunc := ["fc_cd"; "fc_cl"; "fc_cm"; "fail"] in
  print_sens evalFunc funcsSens;;
  mret funcsSens.

(** What the three evaluators of [cruiseFuncs] make of the empty
    dictionary, step by step, in the world left by the flow solve. *)
Definition solved (x : DesignVars) (w : World) : World :=
  CFDSolver_call (ap_setDesignVars x (DVGeo_setDesignVars x w)).

(** The first of [vars] that [d] lacks, if any. *)
Definition first_missing (vars : list string) (d : sdict) : option string :=
  List.find (fun var => bool_decide (d !! var = None)) vars.

(** An entry written by the call [f d w]: there after it, not there
    before. *)
Definition written_by (f : dict -> World -> dict * World)
    (d : dict) (w : World) (key : string) (v : value) : Prop :=
  (f d w).1 !! key = Some v /\ d !! key <> Some v.

Lemma print_items_returns items : forall s,
  exists out', print_items items s = (Return tt, mkEnv (world s) out').
Proof.
  induction items as [|[key val] rest IH]; intros [w out].
  - by eexists.
  - cbn [print_items]. unfold mbind, M_bind, bind.
    destruct (decide (key = "DVCon1_thickness_constraints_0")); cbn.
    + apply (IH (mkEnv w out)).
    + apply (IH (mkEnv w (out ++ [PrintEntry key val])%list)).
Qed.

Lemma cruiseFuncs_returns x s :
  let r1 := DVCon_evalFunctions ∅ (solved x (world s)) in
  let r2 := CFDSolver_evalFunctions r1.1 r1.2 in
  let r3 := CFDSolver_checkSolutionFailure r2.1 r2.2 in
  exists out', cruiseFuncs x s = (Return r3.1, mkEnv r3.2 out').
Proof.
  intros r1 r2 r3. destruct s as [w out].
  unfold cruiseFuncs, mbind, M_bind, bind, mret, M_ret, ret, say, call, fill.
  cbn [world output fst snd].
  fold (solved x w). fold r1. fold r2. fold r3.
  destruct (decide (rank = 0)); [|by eexists].
  match goal with
  | |- context [print_items ?items ?s'] =>
      destruct (print_items_returns items s') as [out' Hout]
  end.
  rewrite Hout. by eexists.
Qed.

Lemma print_sens_runs vars (d : sdict) : forall s,
  exists out',
    print_sens vars d s =
      (match first_missing vars d with
       | None => Return tt
       | Some var => Raise (KeyError var)
       end, mkEnv (world s) out').
Proof.
  induction vars as [|var rest IH]; intros [w out].
  - by eexists.
  - cbn [print_sens first_missing List.find]. unfold mbind, M_bind, bind.
    destruct (d !! var) as [val|] eqn:Hvar.
    + rewrite bool_decide_eq_false_2 by done. cbn.
      apply (IH (mkEnv w (out ++ [PrintSens var val])%list)).
    + rewrite bool_decide_eq_true_2 by done. cbn. by eexists.
Qed.

Lemma cruiseFuncsSens_runs x funcs s :
  let q1 := DVCon_evalFunctionsSens ∅ (world s) in
  let q2 := CFDSolver_evalFunctionsSens q1.1 q1.2 in
  let q3 := CFDSolver_checkAdjointFailure q2.1 q2.2 in
  exists out',
    cruiseFuncsSens x funcs s =
      (match first_missing ["fc_cd"; "fc_cl"; "fc_cm"; "fail"] q3.1 with
       | None => Return q3.1
       | Some var => Raise (KeyError var)
       end, mkEnv q3.2 out').
Proof.
  intros q1 q2 q3. destruct s as [w out].
  unfold cruiseFuncsSens, mbind, M_bind, bind, mret, M_ret, ret, say, fill.
  cbn [world output fst snd]. fold q1. fold q2. fold q3.
  match goal with
  | |- context [print_sens ?vars ?d ?s'] =>
      destruct (print_sens_runs vars d s') as [out' Hout]
  end.
  rewrite Hout. destruct (first_missing _ _); by eexists.
Qed.

(** Whether [print_sens] finds its keys does not hang on the value kept
    under ["fail"], only on its being there. *)
Lemma first_missing_fail_value vars (d : sdict) (v v' : sens) :
  first_missing vars (<["fail" := v]> d) = first_missing vars (<["fail" := v']> d).
Proof.
  unfold first_missing. induction vars as [|var rest IH]; [done|].
  cbn [List.find]. rewrite IH.
  destruct (decide (var = "fail")) as [->|Hne].
  - by rewrite !lookup_insert_eq.
  - by rewrite !lookup_insert_ne.
Qed.

(** No name is missing exactly when every name is a key. *)
Lemma first_missing_None vars (d : sdict) :
  first_missing vars d = None <-> Forall (fun var => is_Some (d !! var)) vars.
Proof.
  unfold first_missing. induction vars as [|var rest IH]; cbn [List.find].
  - split; [constructor|done].
  - destruct (d !! var) as [val|] eqn:Hvar.
    + rewrite bool_decide_eq_false_2 by done. rewrite IH. split.
      * intros Hrest. constructor; [by eexists|done].
      * by inversion 1.
    + rewrite bool_decide_eq_true_2 by done. split; [done|].
      inversion 1 as [|? ? [val Hval]]; congruence.
Qed.

(** C7: cruiseFuncs returns the very dictionary checkSolutionFailure left,
    "fail" entry included, whatever that entry says, and leaves the
    library objects as checkSolutionFailure left them; cruiseFuncsSens
    returns the very dictionary checkAdjointFailure left once the four
    names it prints are among its keys (else the KeyError of the first
    missing one goes up), and which of the two happens does not depend on
    the value stored under "fail".  Neither callback branches on the flag,
    overwrites it or recovers from it. *)
Theorem cruise_callbacks_forward_fail_flag
    (x : DesignVars) (funcs : dict) (s : env World) :
  (let r1 := DVCon_evalFunctions ∅ (solved x (world s)) in
   let r2 := CFDSolver_evalFunctions r1.1 r1.2 in
   let r3 := CFDSolver_checkSolutionFailure r2.1 r2.2 in
   exists out', cruiseFuncs x s = (Return r3.1, mkEnv r3.2 out')) /\
  (let q1 := DVCon_evalFunctionsSens ∅ (world s) in
   let q2 := CFDSolver_evalFunctionsSens q1.1 q1.2 in
   let q3 := CFDSolver_checkAdjointFailure q2.1 q2.2 in
   exists out',
     cruiseFuncsSens x funcs s =
       (match first_missing ["fc_cd"; "fc_cl"; "fc_cm"; "fail"] q3.1 with
        | None => Return q3.1
        | Some var => Raise (KeyError var)
        end, mkEnv q3.2 out')) /\
  (forall d : sdict,
     first_missing ["fc_cd"; "fc_cl"; "fc_cm"; "fail"] d = None <->
     Forall (fun var => is_Some (d !! var)) ["fc_cd"; "fc_cl"; "fc_cm"; "fail"]) /\
  (forall (d : sdict) (v v' : sens),
     first_missing ["fc_cd"; "fc_cl"; "fc_cm"; "fail"] (<["fail" := v]> d)
     = first_missing ["fc_cd"; "fc_cl"; "fc_cm"; "fail"] (<["fail" := v']> d)).
Proof.
  split; [apply cruiseFuncs_returns|].
  split; [apply cruiseFuncsSens_runs|].
  split; [intros d; apply first_missing_None|].
  intros d v v'. apply first_missing_fail_value.
Qed.

(** C8: every call of cruiseFuncs starts from the empty dictionary: what
    it returns is what DVCon.evalFunctions, CFDSolver.evalFunctions and
    CFDSolver.checkSolutionFailure, called in this order, made of the empty
    dictionary, so each of its entries was written by one of these three
    calls of this invocation; and the result is a function of the design
    variables and the library objects alone, none of the callback's own
    state being carried from call to call. *)
Theorem cruiseFuncs_rebuilds_funcs (x : DesignVars) (s : env World) :
  let r1 := DVCon_evalFunctions ∅ (solved x (world s)) in
  let r2 := CFDSolver_evalFunctions r1.1 r1.2 in
  let r3 := CFDSolver_checkSolutionFailure r2.1 r2.2 in
  (cruiseFuncs x s).1 = Return r3.1 /\
  (forall key v,
     r3.1 !! key = Some v ->
     written_by DVCon_evalFunctions ∅ (solved x (world s)) key v \/
     written_by CFDSolver_evalFunctions r1.1 r1.2 key v \/
     written_by CFDSolver_checkSolutionFailure r2.1 r2.2 key v) /\
  (forall s2, world s2 = world s -> (cruiseFuncs x s2).1 = (cruiseFuncs x s).1).
Proof.
  intros r1 r2 r3.
  destruct (cruiseFuncs_returns x s) as [out' Hrun]. fold r1 r2 r3 in Hrun.
  split; [by rewrite Hrun|]. split.
  - intros key v Hkey. unfold written_by. fold r1 r2 r3.
    destruct (decide (r2.1 !! key = Some v)) as [H2|H2]; [|by right; right].
    destruct (decide (r1.1 !! key = Some v)) as [H1|H1]; [|by right; left].
    left. split; [done|]. by rewrite lookup_empty.
  - intros s2 Hworld.
    destruct (cruiseFuncs_returns x s2) as [out2 Hrun2].
    rewrite Hrun, Hrun2, Hworld. done.
Qed.

(** C9: cruiseFuncsSens reads neither of its parameters: from the same
    state of the solver and constraint objects, any two design-variable
    inputs and any two functional dictionaries give equal results. *)
Theorem cruiseFuncsSens_ignores_arguments
    (x1 x2 : DesignVars) (funcs1 funcs2 : dict) (s : env World) :
  cruiseFuncsSens x1 funcs1 s = cruiseFuncsSens x2 funcs2 s.
Proof. reflexivity. Qed.

End Callbacks.

(** ** The callbacks on a stand-in solver *)

(** A stand-in for the libraries, to run the callbacks on: the world counts
    the flow solves, the evaluators write fixed functionals, and the failure
    checks flag every even-numbered solve. *)
Module Toy.

Definition World : Type := nat.

Definition setDesignVars (x : DesignVars) (w : World) : World := w.
Definition solve (w : World) : World := S w.

Definition DVCon_evalFunctions (d : dict) (w : World) : dict * World :=
  (<["DVCon1_volume_constraint_0" := VFloat 1]> d, w).
Definition CFDSolver_evalFunctions (d : dict) (w : World) : dict * World :=
  (<["fc_cm" := VFloat 0.03]>
     (<["fc_cd" := VFloat 0.01]> (<["fc_cl" := VFloat 0.6]> d)), w).
Definition checkSolutionFailure (d : dict) (w : World) : dict * World :=
  (<["fail" := VBool (Nat.even w)]> d, w).

Definition DVCon_evalFunctionsSens (d : sdict) (w : World) : sdict * World :=
  (<["DVCon1_volume_constraint_0" := SDeriv {[ "upper_shape" := [1; 1; 1; 1]%Q ]}]> d, w).
Definition CFDSolver_evalFunctionsSens (d : sdict) (w : World) : sdict * World :=
  (<["fc_cm" := SDeriv {[ "alpha" := [0.01%Q] ]}]>
     (<["fc_cd" := SDeriv {[ "alpha" := [0.002%Q] ]}]>
        (<["fc_cl" := SDeriv {[ "alpha" := [0.1%Q] ]}]> d)), w).
Definition checkAdjointFailure (d : sdict) (w : World) : sdict * World :=
  (<["fail" := SFail (Nat.even w)]> d, w).
(** An adjoint check that records nothing. *)
Definition checkNothing (d : sdict) (w : World) : sdict * World := (d, w).

Definition x0 : DesignVars :=
  {[ "alpha" := [1.0%Q];
     "upper_shape" := [0.2; 0.3; 0.25; 0.2]%Q;
     "lower_shape" := [-0.2; -0.1; -0.1; -0.05]%Q ]}.

Definition cruiseFuncs (rank : nat) :=
  cruiseFuncs World setDesignVars setDesignVars solve
    DVCon_evalFunctions CFDSolver_evalFunctions checkSolutionFailure rank.

Definition cruiseFuncsSens check :=
  cruiseFuncsSens World
    DVCon_evalFunctionsSens CFDSolver_evalFunctionsSens check.

End Toy.

(** The first solve succeeds and the flag goes out as set; the second is
    flagged, and the callback returns all the same, flag included. *)
Example cruiseFuncs_toy_first_solve :
  (Toy.cruiseFuncs 0 Toy.x0 (mkEnv 0 [])).1 = Return sample_funcs /\
  world (Toy.cruiseFuncs 0 Toy.x0 (mkEnv 0 [])).2 = 1.
Proof. split; vm_compute; reflexivity. Qed.

Example cruiseFuncs_toy_flagged_solve :
  (Toy.cruiseFuncs 1 Toy.x0 (mkEnv 1 [])).1
    = Return (<["fail" := VBool true]> sample_funcs) /\
  output (Toy.cruiseFuncs 1 Toy.x0 (mkEnv 1 [])).2 = [PrintDesignVars Toy.x0].
Proof. split; vm_compute; reflexivity. Qed.

Example cruiseFuncsSens_toy_flag_forwarded :
  match (Toy.cruiseFuncsSens Toy.checkAdjointFailure Toy.x0 sample_funcs
           (mkEnv 2 [])).1 with
  | Return d => d !! "fail" = Some (SFail true)
  | Raise _ => False
  end.
Proof. vm_compute. reflexivity. Qed.

Example cruiseFuncsSens_toy_missing_flag :
  (Toy.cruiseFuncsSens Toy.checkNothing Toy.x0 sample_funcs (mkEnv 2 [])).1
    = Raise (KeyError "fail").
Proof. vm_compute. reflexivity. Qed.

(** * Further properties of the scripts *)

(** ** A call of [objCon], case by case *)

(** How one variant's [objCon] runs on any dictionary: the three
    functionals are read in the order cd, cl, cm; the first one missing is
    the [KeyError] raised, by which time the residuals of the ones before it
    are already in the caller's dictionary, while the history and the output
    are untouched; with all three there the call returns the dictionary with
    the three entries written, the values appended and, if asked, printed. *)
Definition runs_in_key_order {G} (objCon : bool -> M (state G) dict)
    (mycl cm_target : Q) (appended : G -> value -> value -> value -> G) : Prop :=
  forall printOK (d : dict) (h : G) out,
    objCon printOK (mkState d h out) =
      match d !! "fc_cd", d !! "fc_cl", d !! "fc_cm" with
      | None, _, _ => (Raise (KeyError "fc_cd"), mkState d h out)
      | Some cd, None, _ =>
          (Raise (KeyError "fc_cl"), mkState (<["obj" := cd]> d) h out)
      | Some cd, Some cl, None =>
          (Raise (KeyError "fc_cm"),
           mkState (<["cl_con_fc" := value_sub cl mycl]> (<["obj" := cd]> d)) h out)
      | Some cd, Some cl, Some cm =>
          let d' := <["cm_con_fc" := value_sub cm cm_target]>
                      (<["cl_con_fc" := value_sub cl mycl]> (<["obj" := cd]> d)) in
          (Return d',
           mkState d' (appended h cd cl cm)
             (if printOK then (out ++ [PrintFuncs "funcs in obj:" d'])%list else out))
      end.

Lemma runs_in_key_order_Single :
  runs_in_key_order Single.objCon Single.mycl Single.mycm appended_Single.
Proof.
  intros printOK d h out. by_cases_on_keys d.
  - by apply objCon_returns_Single.
  - by apply objCon_raises_cm_Single.
  - by apply objCon_raises_cl_Single.
  - by apply objCon_raises_cd_Single.
Qed.

Lemma runs_in_key_order_SLSQP :
  runs_in_key_order Combo.SLSQP.objCon Combo.SLSQP.mycl Combo.SLSQP.mycl appended_SLSQP.
Proof.
  intros printOK d h out. by_cases_on_keys d.
  - by apply objCon_returns_SLSQP.
  - by apply objCon_raises_cm_SLSQP.
  - by apply objCon_raises_cl_SLSQP.
  - by apply objCon_raises_cd_SLSQP.
Qed.

Lemma runs_in_key_order_CONMIN :
  runs_in_key_order Combo.CONMIN.objCon Combo.CONMIN.mycl Combo.CONMIN.mycm appended_CONMIN.
Proof.
  intros printOK d h out. by_cases_on_keys d.
  - by apply objCon_returns_CONMIN.
  - by apply objCon_raises_cm_CONMIN.
  - by apply objCon_raises_cl_CONMIN.
  - by apply objCon_raises_cd_CONMIN.
Qed.

Lemma runs_in_key_order_IPOPT :
  runs_in_key_order Combo.IPOPT.objCon Combo.IPOPT.mycl Combo.IPOPT.mycm appended_IPOPT.
Proof.
  intros printOK d h out. by_cases_on_keys d.
  - by apply objCon_returns_IPOPT.
  - by apply objCon_raises_cm_IPOPT.
  - by apply objCon_raises_cl_IPOPT.
  - by apply objCon_raises_cd_IPOPT.
Qed.

(** X1: a failing objCon is not atomic on the dictionary.  In every variant
    the KeyError names the first of fc_cd, fc_cl, fc_cm that is missing; the
    entries "obj" and "cl_con_fc" computed before the failing read stay
    written in the caller's dictionary, while no history buffer has changed
    and nothing was printed. *)
Theorem objCon_raises_in_key_order :
  runs_in_key_order Single.objCon Single.mycl Single.mycm appended_Single /\
  runs_in_key_order Combo.SLSQP.objCon Combo.SLSQP.mycl Combo.SLSQP.mycl appended_SLSQP /\
  runs_in_key_order Combo.CONMIN.objCon Combo.CONMIN.mycl Combo.CONMIN.mycm appended_CONMIN /\
  runs_in_key_order Combo.IPOPT.objCon Combo.IPOPT.mycl Combo.IPOPT.mycm appended_IPOPT.
Proof.
  split; [exact runs_in_key_order_Single|].
  split; [exact runs_in_key_order_SLSQP|].
  split; [exact runs_in_key_order_CONMIN|exact runs_in_key_order_IPOPT].
Qed.

(** A dictionary whose moment coefficient is missing: the call fails on
    ["fc_cm"] and has set ["obj"] and ["cl_con_fc"] by then. *)
Example objCon_CONMIN_without_cm :
  let d : dict := {[ "fc_cd" := VFloat 0.01; "fc_cl" := VFloat 0.6 ]} in
  let r := Combo.CONMIN.objCon true (mkState d Combo.history0 []) in
  r.1 = Raise (KeyError "fc_cm") /\
  funcs r.2 !! "obj" = Some (VFloat 0.01) /\
  funcs r.2 !! "cl_con_fc" = Some (VFloat (0.6 - 0.5)) /\
  hist r.2 = Combo.history0 /\ stdout r.2 = [].
Proof. vm_compute. repeat split. Qed.

(** ** What the history buffers hold after a run *)

(** The functionals of a dictionary that has all three. *)
Definition functionals (d : dict) : option (value * value * value) :=
  cd ← d !! "fc_cd"; cl ← d !! "fc_cl"; cm ← d !! "fc_cm"; Some (cd, cl, cm).

(** The functionals of the calls that complete, in call order. *)
Definition completed_functionals (calls : list (dict * bool))
    : list (value * value * value) :=
  omap (fun call => functionals call.1) calls.

Section RunContents.
Context {G : Type}.
Variable objCon : bool -> M (state G) dict.
Variables mycl cm_target : Q.
Variable appended : G -> value -> value -> value -> G.
Hypothesis step : runs_in_key_order objCon mycl cm_target appended.

Definition append_all (h : G) (ts : list (value * value * value)) : G :=
  foldl (fun h t => appended h t.1.1 t.1.2 t.2) h ts.

Lemma run_calls_appends calls : forall h out,
  final_hist (run_calls objCon calls h out)
    = append_all h (completed_functionals calls) /\
  completed (run_calls objCon calls h out)
    = length (completed_functionals calls).
Proof.
  induction calls as [|[d printOK] rest IH]; intros h out; [done|].
  cbn [run_calls completed_functionals omap list_omap fst]. rewrite (step printOK d h out).
  unfold functionals.
  destruct (d !! "fc_cd") as [cd|]; [|apply IH].
  destruct (d !! "fc_cl") as [cl|]; [|apply IH].
  destruct (d !! "fc_cm") as [cm|]; [|apply IH].
  cbn [mbind option_bind hist stdout].
  match goal with
  | |- context [run_calls objCon rest ?h' ?out'] =>
      destruct (IH h' out') as [Hh Hn];
      destruct (run_calls objCon rest h' out') as [[h'' out''] n]
  end.
  unfold final_hist, completed in *. cbn in *. by subst.
Qed.
End RunContents.

Lemma append_all_cons {G} (appended : G -> value -> value -> value -> G) h t ts :
  append_all appended h (t :: ts)
    = append_all appended (appended h t.1.1 t.1.2 t.2) ts.
Proof. reflexivity. Qed.

(** The values a completed call appends. *)
Definition cd_of (t : value * value * value) : value := t.1.1.
Definition cl_residual (mycl : Q) (t : value * value * value) : value :=
  value_sub t.1.2 mycl.
Definition cm_residual (target : Q) (t : value * value * value) : value :=
  value_sub t.2 target.

Lemma append_all_Single ts : forall h,
  append_all appended_Single h ts =
    Single.mkHistory
      (Single.obj_vals_SLSQP h ++ map cd_of ts)
      (Single.cl_con_vals_SLSQP h ++ map (cl_residual Single.mycl) ts)
      (Single.cm_con_vals_SLSQP h ++ map (cm_residual Single.mycm) ts).
Proof.
  induction ts as [|t ts IH]; intros [o l m].
  - cbn. by rewrite !app_nil_r.
  - rewrite append_all_cons, IH. cbn. by rewrite <- !app_assoc.
Qed.

Lemma append_all_SLSQP ts : forall h,
  append_all appended_SLSQP h ts =
    Combo.mkHistory
      (Combo.obj_vals_SLSQP h ++ map cd_of ts)
      (Combo.cl_con_vals_SLSQP h ++ map (cl_residual Combo.SLSQP.mycl) ts)
      (Combo.cm_con_vals_SLSQP h ++ map (cm_residual Combo.SLSQP.mycl) ts)
      (Combo.fc_cd_vals_SLSQP h ++ map cd_of ts)
      (Combo.obj_vals_CONMIN h) (Combo.cl_con_vals_CONMIN h)
      (Combo.cm_con_vals_CONMIN h) (Combo.fc_cd_vals_CONMIN h)
      (Combo.obj_vals_IPOPT h) (Combo.cl_con_vals_IPOPT h)
      (Combo.cm_con_vals_IPOPT h) (Combo.fc_cd_vals_IPOPT h).
Proof.
  induction ts as [|t ts IH]; intros [].
  - cbn. by rewrite !app_nil_r.
  - rewrite append_all_cons, IH. cbn. by rewrite <- !app_assoc.
Qed.

Lemma append_all_CONMIN ts : forall h,
  append_all appended_CONMIN h ts =
    Combo.mkHistory
      (Combo.obj_vals_SLSQP h) (Combo.cl_con_vals_SLSQP h)
      (Combo.cm_con_vals_SLSQP h) (Combo.fc_cd_vals_SLSQP h)
      (Combo.obj_vals_CONMIN h ++ map cd_of ts)
      (Combo.cl_con_vals_CONMIN h ++ map (cl_residual Combo.CONMIN.mycl) ts)
      (Combo.cm_con_vals_CONMIN h ++ map (cm_residual Combo.CONMIN.mycm) ts)
      (Combo.fc_cd_vals_CONMIN h ++ map cd_of ts)
      (Combo.obj_vals_IPOPT h) (Combo.cl_con_vals_IPOPT h)
      (Combo.cm_con_vals_IPOPT h) (Combo.fc_cd_vals_IPOPT h).
Proof.
  induction ts as [|t ts IH]; intros [].
  - cbn. by rewrite !app_nil_r.
  - rewrite append_all_cons, IH. cbn. by rewrite <- !app_assoc.
Qed.

Lemma append_all_IPOPT ts : forall h,
  append_all appended_IPOPT h ts =
    Combo.mkHistory
      (Combo.obj_vals_SLSQP h) (Combo.cl_con_vals_SLSQP h)
      (Combo.cm_con_vals_SLSQP h) (Combo.fc_cd_vals_SLSQP h)
      (Combo.obj_vals_CONMIN h) (Combo.cl_con_vals_CONMIN h)
      (Combo.cm_con_vals_CONMIN h) (Combo.fc_cd_vals_CONMIN h)
      (Combo.obj_vals_IPOPT h ++ map cd_of ts)
      (Combo.cl_con_vals_IPOPT h ++ map (cl_residual Combo.IPOPT.mycl) ts)
      (Combo.cm_con_vals_IPOPT h ++ map (cm_residual Combo.IPOPT.mycm) ts)
      (Combo.fc_cd_vals_IPOPT h ++ map cd_of ts).
Proof.
  induction ts as [|t ts IH]; intros [].
  - cbn. by rewrite !app_nil_r.
  - rewrite append_all_cons, IH. cbn. by rewrite <- !app_assoc.
Qed.

Ltac after_run step fold_eq calls h out :=
  destruct (run_calls_appends _ _ _ _ step calls h out) as [-> _];
  rewrite fold_eq.

(** ** Which calls complete *)

(** A call completes, that is returns, exactly on the dictionaries that hold
    the three functionals. *)
Definition completes_on_functionals {G} (objCon : bool -> M (state G) dict)
    : Prop :=
  forall printOK (d : dict) (h : G) out,
    (exists d' s', objCon printOK (mkState d h out) = (Return d', s')) <->
    is_Some (functionals d).

(** The calls of a run that complete are those whose dictionary holds the
    three functionals. *)
Definition counts_calls_with_functionals {G} (objCon : bool -> M (state G) dict)
    (history0 : G) (calls : list (dict * bool)) : Prop :=
  completed (run_calls objCon calls history0 [])
    = length (completed_functionals calls).

Lemma completes_of_key_order {G} (objCon : bool -> M (state G) dict)
    mycl cm_target appended :
  runs_in_key_order objCon mycl cm_target appended ->
  completes_on_functionals objCon.
Proof.
  intros step printOK d h out. rewrite (step printOK d h out). unfold functionals.
  destruct (d !! "fc_cd") as [cd|]; cbn;
    [|split; [by intros (? & ? & ?)|by intros [? ?]]].
  destruct (d !! "fc_cl") as [cl|]; cbn;
    [|split; [by intros (? & ? & ?)|by intros [? ?]]].
  destruct (d !! "fc_cm") as [cm|]; cbn;
    [|split; [by intros (? & ? & ?)|by intros [? ?]]].
  split; [by eexists|]. intros _. by eexists _, _.
Qed.

Lemma counts_of_key_order {G} (objCon : bool -> M (state G) dict)
    mycl cm_target appended history0 calls :
  runs_in_key_order objCon mycl cm_target appended ->
  counts_calls_with_functionals objCon history0 calls.
Proof.
  intros step. unfold counts_calls_with_functionals.
  by destruct (run_calls_appends _ _ _ _ step calls history0 []) as [_ ->].
Qed.

(** C3: every call of objCon on a dictionary that holds the three
    functionals completes, and no other call does; a call that completes
    appends exactly one value to each history buffer of its variant (three
    in the single-run script, four in each run of the combined file), and a
    call that raises appends none; so after any sequence of calls from the
    empty buffers, n of which completed (those on dictionaries with the
    three functionals), every buffer of the variant has length n, and all
    have equal lengths. *)
Theorem objCon_history_buffers_in_step (calls : list (dict * bool)) :
  (completes_on_functionals Single.objCon /\
   appends_once Single.objCon buffers_Single /\
   counts_calls_with_functionals Single.objCon Single.history0 calls /\
   lengths_follow_calls Single.objCon buffers_Single Single.history0 calls) /\
  (completes_on_functionals Combo.SLSQP.objCon /\
   appends_once Combo.SLSQP.objCon buffers_SLSQP /\
   counts_calls_with_functionals Combo.SLSQP.objCon Combo.history0 calls /\
   lengths_follow_calls Combo.SLSQP.objCon buffers_SLSQP Combo.history0 calls) /\
  (completes_on_functionals Combo.CONMIN.objCon /\
   appends_once Combo.CONMIN.objCon buffers_CONMIN /\
   counts_calls_with_functionals Combo.CONMIN.objCon Combo.history0 calls /\
   lengths_follow_calls Combo.CONMIN.objCon buffers_CONMIN Combo.history0 calls) /\
  (completes_on_functionals Combo.IPOPT.objCon /\
   appends_once Combo.IPOPT.objCon buffers_IPOPT /\
   counts_calls_with_functionals Combo.IPOPT.objCon Combo.history0 calls /\
   lengths_follow_calls Combo.IPOPT.objCon buffers_IPOPT Combo.history0 calls).
Proof.
  split; [|split; [|split]].
  - split; [exact (completes_of_key_order _ _ _ _ runs_in_key_order_Single)|].
    split; [exact objCon_appends_once_Single|].
    split; [exact (counts_of_key_order _ _ _ _ _ _ runs_in_key_order_Single)|].
    apply lengths_from_empty; [exact objCon_appends_once_Single|].
    by repeat constructor.
  - split; [exact (completes_of_key_order _ _ _ _ runs_in_key_order_SLSQP)|].
    split; [exact objCon_appends_once_SLSQP|].
    split; [exact (counts_of_key_order _ _ _ _ _ _ runs_in_key_order_SLSQP)|].
    apply lengths_from_empty; [exact objCon_appends_once_SLSQP|].
    by repeat constructor.
  - split; [exact (completes_of_key_order _ _ _ _ runs_in_key_order_CONMIN)|].
    split; [exact objCon_appends_once_CONMIN|].
    split; [exact (counts_of_key_order _ _ _ _ _ _ runs_in_key_order_CONMIN)|].
    apply lengths_from_empty; [exact objCon_appends_once_CONMIN|].
    by repeat constructor.
  - split; [exact (completes_of_key_order _ _ _ _ runs_in_key_order_IPOPT)|].
    split; [exact objCon_appends_once_IPOPT|].
    split; [exact (counts_of_key_order _ _ _ _ _ _ runs_in_key_order_IPOPT)|].
    apply lengths_from_empty; [exact objCon_appends_once_IPOPT|].
    by repeat constructor.
Qed.

(** Every evaluation of a run on the sample dictionary: all calls complete
    and each buffer holds as many values as there were calls. *)
Example run_calls_all_complete :
  let calls := [(sample_funcs, true); (sample_funcs, false); (<["fc_cl" := VFloat 0.5]> sample_funcs, false)] in
  let r := run_calls Single.objCon calls Single.history0 [] in
  completed r = length calls /\
  Forall (fun b => length b = length calls) (buffers_Single (final_hist r)).
Proof. split; [vm_compute; reflexivity|]. vm_compute. by repeat constructor. Qed.

(** X2: after any run of calls, each history buffer holds what it held
    before followed, in call order, by one value per completed call: the
    drag coefficient in obj_vals (and fc_cd_vals), the lift less mycl in
    cl_con_vals, and the moment less mycm in cm_con_vals (less mycl in the
    SLSQP run of the combined file).  Calls that raise leave no trace. *)
Theorem objCon_history_contents (calls : list (dict * bool)) :
  let ts := completed_functionals calls in
  (forall h out,
     buffers_Single (final_hist (run_calls Single.objCon calls h out)) =
       [ Single.obj_vals_SLSQP h ++ map cd_of ts;
         Single.cl_con_vals_SLSQP h ++ map (cl_residual Single.mycl) ts;
         Single.cm_con_vals_SLSQP h ++ map (cm_residual Single.mycm) ts ]%list) /\
  (forall h out,
     buffers_SLSQP (final_hist (run_calls Combo.SLSQP.objCon calls h out)) =
       [ Combo.obj_vals_SLSQP h ++ map cd_of ts;
         Combo.cl_con_vals_SLSQP h ++ map (cl_residual Combo.SLSQP.mycl) ts;
         Combo.cm_con_vals_SLSQP h ++ map (cm_residual Combo.SLSQP.mycl) ts;
         Combo.fc_cd_vals_SLSQP h ++ map cd_of ts ]%list) /\
  (forall h out,
     buffers_CONMIN (final_hist (run_calls Combo.CONMIN.objCon calls h out)) =
       [ Combo.obj_vals_CONMIN h ++ map cd_of ts;
         Combo.cl_con_vals_CONMIN h ++ map (cl_residual Combo.CONMIN.mycl) ts;
         Combo.cm_con_vals_CONMIN h ++ map (cm_residual Combo.CONMIN.mycm) ts;
         Combo.fc_cd_vals_CONMIN h ++ map cd_of ts ]%list) /\
  (forall h out,
     buffers_IPOPT (final_hist (run_calls Combo.IPOPT.objCon calls h out)) =
       [ Combo.obj_vals_IPOPT h ++ map cd_of ts;
         Combo.cl_con_vals_IPOPT h ++ map (cl_residual Combo.IPOPT.mycl) ts;
         Combo.cm_con_vals_IPOPT h ++ map (cm_residual Combo.IPOPT.mycm) ts;
         Combo.fc_cd_vals_IPOPT h ++ map cd_of ts ]%list).
Proof.
  intros ts. split; [|split; [|split]]; intros h out.
  - after_run runs_in_key_order_Single append_all_Single calls h out. done.
  - after_run runs_in_key_order_SLSQP append_all_SLSQP calls h out. done.
  - after_run runs_in_key_order_CONMIN append_all_CONMIN calls h out. done.
  - after_run runs_in_key_order_IPOPT append_all_IPOPT calls h out. done.
Qed.

(** X3: in the combined file the fourth buffer repeats the first: after any
    run from the empty lists, fc_cd_vals equals obj_vals in each of the three
    sections, since "obj" is written from the very entry "fc_cd" that is
    appended to fc_cd_vals. *)
Theorem objCon_Combo_fc_cd_vals_repeat_obj_vals (calls : list (dict * bool)) :
  (let h := final_hist (run_calls Combo.SLSQP.objCon calls Combo.history0 []) in
   Combo.fc_cd_vals_SLSQP h = Combo.obj_vals_SLSQP h) /\
  (let h := final_hist (run_calls Combo.CONMIN.objCon calls Combo.history0 []) in
   Combo.fc_cd_vals_CONMIN h = Combo.obj_vals_CONMIN h) /\
  (let h := final_hist (run_calls Combo.IPOPT.objCon calls Combo.history0 []) in
   Combo.fc_cd_vals_IPOPT h = Combo.obj_vals_IPOPT h).
Proof.
  split; [|split]; cbn zeta.
  - after_run runs_in_key_order_SLSQP append_all_SLSQP calls Combo.history0 (@nil event).
    done.
  - after_run runs_in_key_order_CONMIN append_all_CONMIN calls Combo.history0 (@nil event).
    done.
  - after_run runs_in_key_order_IPOPT append_all_IPOPT calls Combo.history0 (@nil event).
    done.
Qed.

(** X4: the three objCon functions of the combined file keep to their own
    lists: whatever the calls and the history before, a run of one section's
    objCon leaves the eight buffers of the two other sections exactly as
    they were. *)
Theorem objCon_Combo_other_sections_untouched
    (calls : list (dict * bool)) (h : Combo.history) (out : list event) :
  (let h' := final_hist (run_calls Combo.SLSQP.objCon calls h out) in
   buffers_CONMIN h' = buffers_CONMIN h /\ buffers_IPOPT h' = buffers_IPOPT h) /\
  (let h' := final_hist (run_calls Combo.CONMIN.objCon calls h out) in
   buffers_SLSQP h' = buffers_SLSQP h /\ buffers_IPOPT h' = buffers_IPOPT h) /\
  (let h' := final_hist (run_calls Combo.IPOPT.objCon calls h out) in
   buffers_SLSQP h' = buffers_SLSQP h /\ buffers_CONMIN h' = buffers_CONMIN h).
Proof.
  split; [|split]; cbn zeta.
  - after_run runs_in_key_order_SLSQP append_all_SLSQP calls h out. done.
  - after_run runs_in_key_order_CONMIN append_all_CONMIN calls h out. done.
  - after_run runs_in_key_order_IPOPT append_all_IPOPT calls h out. done.
Qed.

(** ** Calling [objCon] again on its own result *)

(** A second call on the state the first one left (the same dictionary
    object, the grown buffers) returns the same dictionary once more and
    appends to every buffer the value the first call appended. *)
Definition settles {G} (objCon : bool -> M (state G) dict)
    (buffers : G -> list (list value)) : Prop :=
  forall printOK printOK' (d : dict) (h : G) out d1 s1,
    objCon printOK (mkState d h out) = (Return d1, s1) ->
    exists s2,
      objCon printOK' s1 = (Return d1, s2) /\
      funcs s2 = d1 /\
      Forall3 (fun b0 b1 b2 =>
                 exists v, b1 = (b0 ++ [v])%list /\ b2 = (b1 ++ [v])%list)
        (buffers h) (buffers (hist s1)) (buffers (hist s2)).

Lemma written_again (d : dict) (cd cl cm vl vm : value) :
  d !! "fc_cd" = Some cd -> d !! "fc_cl" = Some cl -> d !! "fc_cm" = Some cm ->
  let d' := <["cm_con_fc" := vm]> (<["cl_con_fc" := vl]> (<["obj" := cd]> d)) in
  d' !! "fc_cd" = Some cd /\ d' !! "fc_cl" = Some cl /\ d' !! "fc_cm" = Some cm /\
  <["obj" := cd]> d' = d' /\
  <["cl_con_fc" := vl]> d' = d' /\
  <["cm_con_fc" := vm]> d' = d'.
Proof.
  intros Hcd Hcl Hcm d'. subst d'.
  repeat split;
    try (rewrite !lookup_insert_ne by discriminate; assumption);
    apply insert_id;
    repeat (first [ rewrite lookup_insert_eq
                  | rewrite lookup_insert_ne by discriminate ]); reflexivity.
Qed.

Ltac settle step d h out Hrun :=
  let cd := fresh "cd" in
  let cl := fresh "cl" in
  let cm := fresh "cm" in
  let Hcd := fresh "Hcd" in
  let Hcl := fresh "Hcl" in
  let Hcm := fresh "Hcm" in
  let Hcd' := fresh "Hcd'" in
  let Hcl' := fresh "Hcl'" in
  let Hcm' := fresh "Hcm'" in
  let Ho := fresh "Ho" in
  let Hl := fresh "Hl" in
  let Hm := fresh "Hm" in
  rewrite (step _ d h out) in Hrun;
  destruct (d !! "fc_cd") as [cd|] eqn:Hcd; [|discriminate Hrun];
  destruct (d !! "fc_cl") as [cl|] eqn:Hcl; [|discriminate Hrun];
  destruct (d !! "fc_cm") as [cm|] eqn:Hcm; [|discriminate Hrun];
  cbn zeta in Hrun; injection Hrun as <- <-;
  match goal with
  | |- context [<["cm_con_fc" := ?vm]> (<["cl_con_fc" := ?vl]> _)] =>
      destruct (written_again d cd cl cm vl vm Hcd Hcl Hcm)
        as (Hcd' & Hcl' & Hcm' & Ho & Hl & Hm)
  end;
  eexists; rewrite step, Hcd', Hcl', Hcm'; cbn zeta;
  rewrite Ho, Hl, Hm;
  split; [reflexivity|]; split; [reflexivity|];
  repeat (constructor; [by eexists|]); constructor.

Lemma settles_Single : settles Single.objCon buffers_Single.
Proof.
  intros p p' d h out d1 s1 Hrun. settle runs_in_key_order_Single d h out Hrun.
Qed.

Lemma settles_SLSQP : settles Combo.SLSQP.objCon buffers_SLSQP.
Proof.
  intros p p' d h out d1 s1 Hrun. settle runs_in_key_order_SLSQP d h out Hrun.
Qed.

Lemma settles_CONMIN : settles Combo.CONMIN.objCon buffers_CONMIN.
Proof.
  intros p p' d h out d1 s1 Hrun. settle runs_in_key_order_CONMIN d h out Hrun.
Qed.

Lemma settles_IPOPT : settles Combo.IPOPT.objCon buffers_IPOPT.
Proof.
  intros p p' d h out d1 s1 Hrun. settle runs_in_key_order_IPOPT d h out Hrun.
Qed.

(** X5: objCon is idempotent on the dictionary.  In every variant, a call
    on the very state a returning call left (the same dictionary object)
    returns the same dictionary again, since it recomputes the three entries
    from the unchanged functionals; but it appends to every history buffer
    once more the value it appended the first time. *)
Theorem objCon_settles :
  settles Single.objCon buffers_Single /\
  settles Combo.SLSQP.objCon buffers_SLSQP /\
  settles Combo.CONMIN.objCon buffers_CONMIN /\
  settles Combo.IPOPT.objCon buffers_IPOPT.
Proof.
  split; [exact settles_Single|].
  split; [exact settles_SLSQP|].
  split; [exact settles_CONMIN|exact settles_IPOPT].
Qed.

Lemma objCon_settles_witness :
  let d1 := written_IPOPT sample_funcs (VFloat 0.01) (VFloat 0.6) (VFloat 0.03) in
  let s1 := mkState d1
              (appended_IPOPT Combo.history0 (VFloat 0.01) (VFloat 0.6) (VFloat 0.03))
              [PrintFuncs "funcs in obj:" d1] in
  Combo.IPOPT.objCon true (mkState sample_funcs Combo.history0 []) = (Return d1, s1) /\
  exists s2,
    Combo.IPOPT.objCon false s1 = (Return d1, s2) /\
    funcs s2 = d1 /\
    Forall3 (fun b0 b1 b2 =>
               exists v, b1 = (b0 ++ [v])%list /\ b2 = (b1 ++ [v])%list)
      (buffers_IPOPT Combo.history0) (buffers_IPOPT (hist s1))
      (buffers_IPOPT (hist s2)).
Proof.
  intros d1 s1.
  assert (Hrun : Combo.IPOPT.objCon true (mkState sample_funcs Combo.history0 [])
                 = (Return d1, s1)) by (by apply objCon_returns_IPOPT).
  split; [exact Hrun|].
  exact (proj2 (proj2 (proj2 objCon_settles)) true false sample_funcs
           Combo.history0 [] d1 s1 Hrun).
Defined.

(** ** The four copies of [objCon] side by side *)

(** Two copies agree on an input: they end alike (the same returned
    dictionary, or the same exception), with the same dictionary object and
    the same output. *)
Definition same_run {G G'} (r : outcome dict * state G)
    (r' : outcome dict * state G') : Prop :=
  r.1 = r'.1 /\ funcs r.2 = funcs r'.2 /\ stdout r.2 = stdout r'.2.

(** X6: the objCon of 497project.py and those of the CONMIN and IPOPT
    sections of the combined file are one function up to the lists they
    append to: on every input they return the same dictionary or raise the
    same KeyError, leave the same dictionary and print the same.  The SLSQP
    section's copy raises the same errors too, and what it returns differs
    from theirs under no key other than "cm_con_fc". *)
Theorem objCon_copies_agree (printOK : bool) (d : dict)
    (h : Single.history) (hc : Combo.history) (out : list event) :
  same_run (Single.objCon printOK (mkState d h out))
           (Combo.CONMIN.objCon printOK (mkState d hc out)) /\
  same_run (Combo.CONMIN.objCon printOK (mkState d hc out))
           (Combo.IPOPT.objCon printOK (mkState d hc out)) /\
  match (Combo.SLSQP.objCon printOK (mkState d hc out)).1,
        (Combo.CONMIN.objCon printOK (mkState d hc out)).1 with
  | Return a, Return b => forall key, key <> "cm_con_fc" -> a !! key = b !! key
  | Raise e, Raise e' => e = e'
  | _, _ => False
  end.
Proof.
  rewrite (runs_in_key_order_Single printOK d h out).
  rewrite (runs_in_key_order_SLSQP printOK d hc out).
  rewrite (runs_in_key_order_CONMIN printOK d hc out).
  rewrite (runs_in_key_order_IPOPT printOK d hc out).
  destruct (d !! "fc_cd") as [cd|]; [|done].
  destruct (d !! "fc_cl") as [cl|]; [|done].
  destruct (d !! "fc_cm") as [cm|]; [|done].
  split; [done|]. split; [done|]. cbn.
  intros key Hkey. by rewrite !(lookup_insert_ne _ "cm_con_fc") by done.
Qed.

(** ** Complex step *)

(** [v'] is the complex [v] moved by the real constant [c]: the real part is
    less by [c], the imaginary part the same number. *)
Definition shifted_by (c : Q) (v v' : value) : Prop :=
  forall re im, v = VComplex re im ->
    exists re' im', v' = VComplex re' im' /\ (re' == re - c)%Q /\ (im' == im)%Q.

Lemma value_sub_shifts (v : value) (c : Q) : shifted_by c v (value_sub v c).
Proof.
  intros re im ->. exists (re - c)%Q, (im - 0)%Q. cbn.
  split; [reflexivity|]. split; [reflexivity|]. ring.
Qed.

Definition keeps_imaginary_parts {G} (objCon : bool -> M (state G) dict)
    (mycl cm_target : Q) (printOK : bool) (d : dict) (cd cl cm : value) : Prop :=
  forall (h : G) out,
    exists d' s' vl vm,
      objCon printOK (mkState d h out) = (Return d', s') /\
      d' !! "obj" = Some cd /\
      d' !! "cl_con_fc" = Some vl /\ shifted_by mycl cl vl /\
      d' !! "cm_con_fc" = Some vm /\ shifted_by cm_target cm vm.

Ltac keep_imaginary step d h out :=
  rewrite (step _ d h out);
  repeat match goal with H : d !! _ = Some _ |- _ => rewrite H; clear H end;
  eexists _, _, _, _; split; [reflexivity|];
  repeat (first [ rewrite lookup_insert_eq
                | rewrite lookup_insert_ne by discriminate ]);
  repeat split; apply value_sub_shifts.

(** X7: objCon lets the complex step through.  When a functional comes in
    as a complex number, as it does while derivatives are taken by complex
    step, its residual is complex with the same imaginary part and the real
    part less the target, and "obj" is the drag coefficient itself,
    imaginary part included; so the perturbation carried by the imaginary
    parts passes unchanged, in every variant. *)
Theorem objCon_keeps_imaginary_parts
    (printOK : bool) (d : dict) (cd cl cm : value) :
  d !! "fc_cd" = Some cd -> d !! "fc_cl" = Some cl -> d !! "fc_cm" = Some cm ->
  keeps_imaginary_parts Single.objCon Single.mycl Single.mycm printOK d cd cl cm /\
  keeps_imaginary_parts Combo.SLSQP.objCon Combo.SLSQP.mycl Combo.SLSQP.mycl
    printOK d cd cl cm /\
  keeps_imaginary_parts Combo.CONMIN.objCon Combo.CONMIN.mycl Combo.CONMIN.mycm
    printOK d cd cl cm /\
  keeps_imaginary_parts Combo.IPOPT.objCon Combo.IPOPT.mycl Combo.IPOPT.mycm
    printOK d cd cl cm.
Proof.
  intros Hcd Hcl Hcm. split; [|split; [|split]]; intros h out.
  - keep_imaginary runs_in_key_order_Single d h out.
  - keep_imaginary runs_in_key_order_SLSQP d h out.
  - keep_imaginary runs_in_key_order_CONMIN d h out.
  - keep_imaginary runs_in_key_order_IPOPT d h out.
Qed.

(** The functionals with the lift perturbed by the complex step. *)
Definition stepped_funcs : dict :=
  <["fc_cl" := VComplex 0.6 (1 # 1000000)]> sample_funcs.

Lemma objCon_keeps_imaginary_parts_witness :
  let cd := VFloat 0.01 in
  let cl := VComplex 0.6 (1 # 1000000) in
  let cm := VFloat 0.03 in
  (stepped_funcs !! "fc_cd" = Some cd /\ stepped_funcs !! "fc_cl" = Some cl /\
   stepped_funcs !! "fc_cm" = Some cm) /\
  keeps_imaginary_parts Single.objCon Single.mycl Single.mycm
    false stepped_funcs cd cl cm /\
  keeps_imaginary_parts Combo.SLSQP.objCon Combo.SLSQP.mycl Combo.SLSQP.mycl
    false stepped_funcs cd cl cm /\
  keeps_imaginary_parts Combo.CONMIN.objCon Combo.CONMIN.mycl Combo.CONMIN.mycm
    false stepped_funcs cd cl cm /\
  keeps_imaginary_parts Combo.IPOPT.objCon Combo.IPOPT.mycl Combo.IPOPT.mycm
    false stepped_funcs cd cl cm.
Proof.
  split; [repeat split; reflexivity|].
  apply (objCon_keeps_imaginary_parts false stepped_funcs
           (VFloat 0.01) (VComplex 0.6 (1 # 1000000)) (VFloat 0.03)); reflexivity.
Defined.

(** ** The residuals as constraints *)

(** A constraint declared by name and bounds, as [optProb.addCon] takes the
    two residuals. *)
Record BoundCon : Type := mkBoundCon {
  bc_name : string;
  bc_lower : Q;
  bc_upper : Q;
  bc_scale : Q
}.

(** Lines 176 and 179 (the same in every section of the combined file). *)
Definition cl_con : BoundCon :=
  {| bc_name := "cl_con_" ++ name ap;
     bc_lower := 0.0; bc_upper := 0.0; bc_scale := 1.0 |}.

Definition cm_con : BoundCon :=
  {| bc_name := "cm_con_" ++ name ap;
     bc_lower := 0.0; bc_upper := 0.0; bc_scale := 1.0 |}.

(** A dictionary meets a constraint when the entry of that name is a real
    number within the bounds. *)
Definition meets (c : BoundCon) (d : dict) : Prop :=
  exists r, d !! bc_name c = Some (VFloat r) /\ (bc_lower c <= r <= bc_upper c)%Q.

Lemma zero_residual (x c : Q) : (0.0 <= x - c <= 0.0)%Q <-> (x == c)%Q.
Proof. split; [intros [Hlo Hhi]|intros Heq]; lra. Qed.

(** What the two constraints ask of real functionals, through one variant's
    [objCon]: the lift must be [mycl], the moment must be [cm_target]. *)
Definition constrains_to {G} (objCon : bool -> M (state G) dict)
    (mycl cm_target : Q) (printOK : bool) (d : dict) (cl cm : Q) : Prop :=
  forall (h : G) out,
    exists d' s',
      objCon printOK (mkState d h out) = (Return d', s') /\
      (meets cl_con d' <-> (cl == mycl)%Q) /\
      (meets cm_con d' <-> (cm == cm_target)%Q).

Ltac constrain step d h out :=
  rewrite (step _ d h out);
  repeat match goal with H : d !! _ = Some _ |- _ => rewrite H; clear H end;
  eexists _, _; split; [reflexivity|];
  unfold meets; cbv [cl_con cm_con bc_name bc_lower bc_upper ap name String.append];
  repeat (first [ rewrite lookup_insert_eq
                | rewrite lookup_insert_ne by discriminate ]);
  split; (split;
    [ intros (r & [= <-] & Hr); by apply zero_residual
    | intros Heq; eexists; split; [reflexivity|]; by apply zero_residual ]).

(** X8: with both bounds 0.0, the constraint "cl_con_fc" is met exactly when
    the computed lift coefficient equals mycl = 0.5, and "cm_con_fc" exactly
    when the moment coefficient equals mycm = 0.03, in 497project.py and in
    the CONMIN and IPOPT sections; in the SLSQP section of the combined file
    "cm_con_fc" is met exactly when the moment coefficient equals 0.5, the
    lift target. *)
Theorem objCon_constraints_targets
    (printOK : bool) (d : dict) (cd : value) (cl cm : Q) :
  d !! "fc_cd" = Some cd ->
  d !! "fc_cl" = Some (VFloat cl) ->
  d !! "fc_cm" = Some (VFloat cm) ->
  constrains_to Single.objCon 0.5 0.03 printOK d cl cm /\
  constrains_to Combo.SLSQP.objCon 0.5 0.5 printOK d cl cm /\
  constrains_to Combo.CONMIN.objCon 0.5 0.03 printOK d cl cm /\
  constrains_to Combo.IPOPT.objCon 0.5 0.03 printOK d cl cm.
Proof.
  intros Hcd Hcl Hcm. split; [|split; [|split]]; intros h out.
  - constrain runs_in_key_order_Single d h out.
  - constrain runs_in_key_order_SLSQP d h out.
  - constrain runs_in_key_order_CONMIN d h out.
  - constrain runs_in_key_order_IPOPT d h out.
Qed.

Lemma objCon_constraints_targets_witness :
  (sample_funcs !! "fc_cd" = Some (VFloat 0.01) /\
   sample_funcs !! "fc_cl" = Some (VFloat 0.6) /\
   sample_funcs !! "fc_cm" = Some (VFloat 0.03)) /\
  constrains_to Single.objCon 0.5 0.03 true sample_funcs 0.6 0.03 /\
  constrains_to Combo.SLSQP.objCon 0.5 0.5 true sample_funcs 0.6 0.03 /\
  constrains_to Combo.CONMIN.objCon 0.5 0.03 true sample_funcs 0.6 0.03 /\
  constrains_to Combo.IPOPT.objCon 0.5 0.03 true sample_funcs 0.6 0.03.
Proof.
  split; [repeat split; reflexivity|].
  apply (objCon_constraints_targets true sample_funcs (VFloat 0.01) 0.6 0.03);
    reflexivity.
Defined.

(** ** The linear constraint for any number of coefficients *)

(** Lines 183-192 with the number of CST coefficients left open; the scripts
    set it to 4 at line 76. *)
Definition first_cst_coeff_match_for (n : nat) : option Constraint :=
  jac ← np_setitem (np_zeros 1 n) 0 0 1.0%Q;
  Some {| con_name := "first_cst_coeff_match";
          con_lower := 0.0;
          con_upper := 0.0;
          con_linear := true;
          con_wrt := ["upper_shape"; "lower_shape"];
          con_jac := {[ "upper_shape" := jac; "lower_shape" := jac ]} |}.

Lemma first_cst_coeff_match_for_nCoeff :
  first_cst_coeff_match_for nCoeff = first_cst_coeff_match.
Proof. reflexivity. Qed.

Lemma dot_zeros (k : nat) (xs : list Q) : (dot (replicate k 0%Q) xs == 0)%Q.
Proof.
  unfold dot. revert xs. induction k as [|k IH]; intros [|x xs]; cbn; try reflexivity.
  rewrite IH. ring.
Qed.

(** X9: whatever the number n of CST coefficients, the construction of
    "first_cst_coeff_match" behaves alike.  With n = 0 the assignment
    jac[0, 0] = 1.0 falls outside the 1-by-0 array and the constraint is
    never declared; with n >= 1 the Jacobian of both groups is the row
    (1, 0, ..., 0) and on coefficient vectors of length n the constraint's
    value is u[0] + l[0]. *)
Theorem first_cst_coeff_match_any_nCoeff
    (n : nat) (x : DesignVars) (u l : list Q) :
  x !! "upper_shape" = Some u -> length u = n ->
  x !! "lower_shape" = Some l -> length l = n ->
  match n with
  | 0 => first_cst_coeff_match_for n = None
  | S k =>
      exists c,
        first_cst_coeff_match_for n = Some c /\
        con_jac c !! "upper_shape" = Some [1.0%Q :: replicate k 0%Q] /\
        con_jac c !! "lower_shape" = Some [1.0%Q :: replicate k 0%Q] /\
        exists u0 l0 v,
          u !! 0 = Some u0 /\ l !! 0 = Some l0 /\
          linear_value c x = Some [v] /\ (v == u0 + l0)%Q
  end.
Proof.
  intros Hu Hlu Hl Hll. destruct n as [|k]; [reflexivity|].
  destruct u as [|u0 us]; [discriminate Hlu|].
  destruct l as [|l0 ls]; [discriminate Hll|].
  injection Hlu as Hlu. injection Hll as Hll.
  assert (Hjac : np_setitem (np_zeros 1 (S k)) 0 0 1.0%Q
                 = Some [1.0%Q :: replicate k 0%Q]).
  { unfold np_setitem, np_zeros. cbn [replicate lookup list_lookup].
    rewrite decide_True by (cbn; lia). reflexivity. }
  unfold first_cst_coeff_match_for. rewrite Hjac. cbn [mbind option_bind].
  eexists. split; [reflexivity|]. cbn [con_jac].
  split; [by rewrite lookup_insert_eq|].
  split; [by rewrite lookup_insert_ne, lookup_singleton_eq by discriminate|].
  exists u0, l0. eexists. split; [reflexivity|]. split; [reflexivity|].
  unfold linear_value. cbn [con_wrt con_jac].
  rewrite lookup_insert_eq. cbn [mbind option_bind length replicate linear_value_from].
  rewrite lookup_insert_eq, Hu. cbn [mbind option_bind].
  rewrite decide_True
    by (split; [repeat constructor; cbn; by rewrite length_replicate, Hlu|done]).
  rewrite lookup_insert_ne by discriminate. rewrite lookup_singleton_eq, Hl.
  cbn [mbind option_bind].
  rewrite decide_True
    by (split; [repeat constructor; cbn; by rewrite length_replicate, Hll|done]).
  split; [reflexivity|].
  cbn [mat_vec map zip_with]. unfold dot at 1 2. cbn [zip_with foldr].
  fold (dot (replicate k 0%Q) us). fold (dot (replicate k 0%Q) ls).
  rewrite !dot_zeros. ring.
Qed.

Lemma first_cst_coeff_match_any_nCoeff_witness :
  let x : DesignVars :=
    {[ "upper_shape" := [0.2; 0.3]%Q; "lower_shape" := [-0.2; -0.1]%Q ]} in
  exists c,
    first_cst_coeff_match_for 2 = Some c /\
    con_jac c !! "upper_shape" = Some [1.0%Q :: replicate 1 0%Q] /\
    con_jac c !! "lower_shape" = Some [1.0%Q :: replicate 1 0%Q] /\
    exists u0 l0 v,
      [0.2; 0.3]%Q !! 0 = Some u0 /\ [-0.2; -0.1]%Q !! 0 = Some l0 /\
      linear_value c x = Some [v] /\ (v == u0 + l0)%Q.
Proof.
  apply (first_cst_coeff_match_any_nCoeff 2 _ [0.2; 0.3]%Q [-0.2; -0.1]%Q);
    reflexivity.
Defined.

(** ** What the callbacks print *)

(** The lines the loop of [cruiseFuncs] prints for a list of items. *)
Definition printed_entries (items : list (string * value)) : list event :=
  map (fun item => PrintEntry item.1 item.2)
    (filter (fun item => item.1 <> "DVCon1_thickness_constraints_0") items).

(** The lines the loop of [cruiseFuncsSens] gets to print: one for each name
    up to the first that is missing. *)
Fixpoint printed_sens (vars : list string) (d : sdict) : list event :=
  match vars with
  | [] => []
  | var :: rest =>
      match d !! var with
      | Some val => PrintSens var val :: printed_sens rest d
      | None => []
      end
  end.

(** The printed entries are those of the dictionary, each once, but for the
    thickness array. *)
Lemma printed_entries_of_dict (d : dict) :
  NoDup (printed_entries (map_to_list d)) /\
  forall e,
    e ∈ printed_entries (map_to_list d) <->
    exists key v,
      e = PrintEntry key v /\ key <> "DVCon1_thickness_constraints_0" /\
      d !! key = Some v.
Proof.
  unfold printed_entries. split.
  - apply (NoDup_fmap_2_strong (fun item : string * value => PrintEntry item.1 item.2)).
    + intros [k v] [k' v'] _ _ [= -> ->]. reflexivity.
    + apply NoDup_filter, NoDup_map_to_list.
  - intros e. rewrite list_elem_of_fmap. split.
    + intros ([key v] & -> & Hin). apply list_elem_of_filter in Hin as [Hkey Hin].
      apply elem_of_map_to_list in Hin. by exists key, v.
    + intros (key & v & -> & Hkey & Hd). exists (key, v). split; [done|].
      apply list_elem_of_filter. split; [done|]. by apply elem_of_map_to_list.
Qed.

(** A line of the sensitivity loop: the name and what is stored under it. *)
Definition sens_line (d : sdict) (var : string) (line : event) : Prop :=
  exists val, d !! var = Some val /\ line = PrintSens var val.

Lemma printed_sens_until_missing vars (d : sdict) :
  match first_missing vars d with
  | None => Forall2 (sens_line d) vars (printed_sens vars d)
  | Some var =>
      exists before after,
        vars = (before ++ var :: after)%list /\ d !! var = None /\
        Forall2 (sens_line d) before (printed_sens vars d)
  end.
Proof.
  unfold first_missing. induction vars as [|var rest IH]; [constructor|].
  cbn [List.find printed_sens].
  destruct (d !! var) as [val|] eqn:Hvar.
  - rewrite bool_decide_eq_false_2 by done.
    destruct (List.find _ rest) as [missing|].
    + destruct IH as (before & after & -> & Hnone & Hlines).
      exists (var :: before), after. split; [done|]. split; [done|].
      constructor; [by exists val|done].
    + constructor; [by exists val|done].
  - rewrite bool_decide_eq_true_2 by done.
    exists [], rest. split; [done|]. split; [done|]. constructor.
Qed.

Section CallbackOutput.
Variable World : Type.
Variable DVGeo_setDesignVars : DesignVars -> World -> World.
Variable ap_setDesignVars : DesignVars -> World -> World.
Variable CFDSolver_call : World -> World.
Variable DVCon_evalFunctions : dict -> World -> dict * World.
Variable CFDSolver_evalFunctions : dict -> World -> dict * World.
Variable CFDSolver_checkSolutionFailure : dict -> World -> dict * World.
Variable DVCon_evalFunctionsSens : sdict -> World -> sdict * World.
Variable CFDSolver_evalFunctionsSens : sdict -> World -> sdict * World.
Variable CFDSolver_checkAdjointFailure : sdict -> World -> sdict * World.
Variable rank : nat.

Let cruiseFuncs' :=
  cruiseFuncs World DVGeo_setDesignVars ap_setDesignVars CFDSolver_call
    DVCon_evalFunctions CFDSolver_evalFunctions CFDSolver_checkSolutionFailure rank.

Let cruiseFuncsSens' :=
  cruiseFuncsSens World DVCon_evalFunctionsSens CFDSolver_evalFunctionsSens
    CFDSolver_checkAdjointFailure.

Let evaluated (x : DesignVars) (w : World) : dict * World :=
  let r1 := DVCon_evalFunctions ∅
              (solved World DVGeo_setDesignVars ap_setDesignVars CFDSolver_call x w) in
  let r2 := CFDSolver_evalFunctions r1.1 r1.2 in
  CFDSolver_checkSolutionFailure r2.1 r2.2.

Let differentiated (w : World) : sdict * World :=
  let q1 := DVCon_evalFunctionsSens ∅ w in
  let q2 := CFDSolver_evalFunctionsSens q1.1 q1.2 in
  CFDSolver_checkAdjointFailure q2.1 q2.2.

Lemma print_items_output items : forall (w : World) out,
  print_items World items (mkEnv w out)
    = (Return tt, mkEnv w (out ++ printed_entries items)%list).
Proof.
  induction items as [|[key val] rest IH]; intros w out.
  - cbn. by rewrite app_nil_r.
  - cbn [print_items]. unfold mbind, M_bind, bind, printed_entries.
    rewrite filter_cons. cbn [fst].
    destruct (decide (key = "DVCon1_thickness_constraints_0")) as [Hkey|Hkey];
      destruct (decide (key <> "DVCon1_thickness_constraints_0")) as [Hne|Hne];
      try contradiction.
    + cbn. apply IH.
    + cbn. rewrite IH. unfold printed_entries. by rewrite <- app_assoc.
Qed.

Lemma cruiseFuncs_output x w out :
  cruiseFuncs' x (mkEnv w out) =
    (Return (evaluated x w).1,
     mkEnv (evaluated x w).2
       (out ++ PrintDesignVars x ::
          (if decide (rank = 0)
           then PrintText "functions:"
                  :: printed_entries (map_to_list (evaluated x w).1)
           else []))%list).
Proof.
  unfold cruiseFuncs', cruiseFuncs, mbind, M_bind, bind, mret, M_ret, ret,
    say, call, fill.
  cbn [world output fst snd]. unfold evaluated, solved. cbn zeta.
  destruct (decide (rank = 0)); [|reflexivity].
  rewrite print_items_output. cbn [world output]. by rewrite <- !app_assoc.
Qed.

Lemma print_sens_output vars (d : sdict) : forall (w : World) out,
  print_sens World vars d (mkEnv w out) =
    (match first_missing vars d with
     | None => Return tt
     | Some var => Raise (KeyError var)
     end, mkEnv w (out ++ printed_sens vars d)%list).
Proof.
  induction vars as [|var rest IH]; intros w out.
  - cbn. by rewrite app_nil_r.
  - cbn [print_sens first_missing List.find printed_sens].
    unfold mbind, M_bind, bind.
    destruct (d !! var) as [val|] eqn:Hvar.
    + rewrite bool_decide_eq_false_2 by done. cbn. rewrite IH.
      unfold first_missing. by rewrite <- app_assoc.
    + rewrite bool_decide_eq_true_2 by done. cbn. by rewrite app_nil_r.
Qed.

Lemma cruiseFuncsSens_output x funcs w out :
  cruiseFuncsSens' x funcs (mkEnv w out) =
    (match first_missing ["fc_cd"; "fc_cl"; "fc_cm"; "fail"] (differentiated w).1 with
     | None => Return (differentiated w).1
     | Some var => Raise (KeyError var)
     end,
     mkEnv (differentiated w).2
       (out ++ PrintText "function sensitivities:"
            :: printed_sens ["fc_cd"; "fc_cl"; "fc_cm"; "fail"] (differentiated w).1)%list).
Proof.
  unfold cruiseFuncsSens', cruiseFuncsSens, mbind, M_bind, bind, mret, M_ret,
    ret, say, fill.
  cbn [world output fst snd]. unfold differentiated. cbn zeta.
  rewrite print_sens_output. cbn [world output]. rewrite <- !app_assoc.
  by destruct (first_missing _ _).
Qed.

(** X10: cruiseFuncs prints the design variables first, on every process;
    on rank 0 it then prints the line "functions:" and one line for each
    entry of the dictionary it returns, each exactly once, except the entry
    "DVCon1_thickness_constraints_0", which is never printed; on any other
    rank it prints nothing more. *)
Theorem cruiseFuncs_prints_all_but_thickness (x : DesignVars) (w : World) out :
  exists d lines,
    (cruiseFuncs' x (mkEnv w out)).1 = Return d /\
    output (cruiseFuncs' x (mkEnv w out)).2
      = (out ++ PrintDesignVars x :: lines)%list /\
    if decide (rank = 0)
    then exists entries,
           lines = PrintText "functions:" :: entries /\
           NoDup entries /\
           forall e,
             e ∈ entries <->
             exists key v,
               e = PrintEntry key v /\
               key <> "DVCon1_thickness_constraints_0" /\
               d !! key = Some v
    else lines = [].
Proof.
  rewrite cruiseFuncs_output. cbn [fst snd output].
  eexists _, _. split; [reflexivity|]. split; [reflexivity|].
  destruct (decide (rank = 0)) as [Hrank|Hrank]; [|reflexivity].
  destruct (printed_entries_of_dict (evaluated x w).1) as [Hnodup Hin].
  eexists. split; [reflexivity|]. split; [exact Hnodup|exact Hin].
Qed.

(** X11: cruiseFuncsSens prints as it goes and does not take anything back.
    After the three library calls it prints the heading, then the entries
    "fc_cd", "fc_cl", "fc_cm", "fail" in this order; if one of them is
    missing the KeyError comes after the heading and the lines of the names
    before it are already out and the library objects already changed by the
    sensitivity evaluations. *)
Theorem cruiseFuncsSens_prints_until_missing
    (x : DesignVars) (funcs : dict) (w : World) out :
  let r := cruiseFuncsSens' x funcs (mkEnv w out) in
  let d := (differentiated w).1 in
  exists lines,
    output r.2 = (out ++ PrintText "function sensitivities:" :: lines)%list /\
    world r.2 = (differentiated w).2 /\
    match r.1 with
    | Return d' =>
        d' = d /\
        Forall2 (sens_line d) ["fc_cd"; "fc_cl"; "fc_cm"; "fail"] lines
    | Raise e =>
        exists before var after,
          e = KeyError var /\
          ["fc_cd"; "fc_cl"; "fc_cm"; "fail"] = (before ++ var :: after)%list /\
          d !! var = None /\
          Forall2 (sens_line d) before lines
    end.
Proof.
  intros r d. subst r. rewrite cruiseFuncsSens_output. cbn [fst snd output world].
  eexists. split; [reflexivity|]. split; [reflexivity|].
  pose proof (printed_sens_until_missing ["fc_cd"; "fc_cl"; "fc_cm"; "fail"] d)
    as Hlines.
  fold d. destruct (first_missing _ d) as [var|].
  - destruct Hlines as (before & after & Hsplit & Hnone & Hlines).
    by exists before, var, after.
  - done.
Qed.

End CallbackOutput.

(** ** The figures of the combined file *)

(** [np.real]: the real part of a complex number; a real value as it is. *)
Definition np_real (v : value) : value :=
  match v with
  | VComplex re _ => VFloat re
  | _ => v
  end.

(** [np.arange(n)]. *)
Definition np_arange (n : nat) : list nat := seq 0 n.

(** One plotted curve (lines 624-632 and alike): the real parts of a buffer
    against [np.arange] of their number. *)
Definition curve (vals : list value) : list nat * list value :=
  let real_vals := map np_real vals in
  (np_arange (length real_vals), real_vals).

(** The three figures, each with its curves in plotting order: CONMIN,
    SLSQP, IPOPT. *)
Definition figure1 (h : Combo.history) : list (list nat * list value) :=
  [curve (Combo.fc_cd_vals_CONMIN h); curve (Combo.fc_cd_vals_SLSQP h);
   curve (Combo.fc_cd_vals_IPOPT h)].

Definition figure2 (h : Combo.history) : list (list nat * list value) :=
  [curve (Combo.cl_con_vals_CONMIN h); curve (Combo.cl_con_vals_SLSQP h);
   curve (Combo.cl_con_vals_IPOPT h)].

Definition figure3 (h : Combo.history) : list (list nat * list value) :=
  [curve (Combo.cm_con_vals_CONMIN h); curve (Combo.cm_con_vals_SLSQP h);
   curve (Combo.cm_con_vals_IPOPT h)].

(** The combined file from top to bottom, as far as the buffers go: the
    SLSQP run, the CONMIN run and the IPOPT run, each optimiser calling the
    [objCon] of its section on the dictionaries of its evaluations. *)
Definition combo_script (callsS callsC callsI : list (dict * bool))
    : Combo.history :=
  let '(h1, out1, _) := run_calls Combo.SLSQP.objCon callsS Combo.history0 [] in
  let '(h2, out2, _) := run_calls Combo.CONMIN.objCon callsC h1 out1 in
  let '(h3, _, _) := run_calls Combo.IPOPT.objCon callsI h2 out2 in
  h3.

Lemma combo_script_appends callsS callsC callsI :
  combo_script callsS callsC callsI =
    append_all appended_IPOPT
      (append_all appended_CONMIN
         (append_all appended_SLSQP Combo.history0 (completed_functionals callsS))
         (completed_functionals callsC))
      (completed_functionals callsI).
Proof.
  unfold combo_script.
  pose proof (run_calls_appends _ _ _ _ runs_in_key_order_SLSQP callsS
                Combo.history0 []) as [H1 _].
  destruct (run_calls Combo.SLSQP.objCon callsS Combo.history0 [])
    as [[h1 out1] n1].
  pose proof (run_calls_appends _ _ _ _ runs_in_key_order_CONMIN callsC h1 out1)
    as [H2 _].
  destruct (run_calls Combo.CONMIN.objCon callsC h1 out1) as [[h2 out2] n2].
  pose proof (run_calls_appends _ _ _ _ runs_in_key_order_IPOPT callsI h2 out2)
    as [H3 _].
  destruct (run_calls Combo.IPOPT.objCon callsI h2 out2) as [[h3 out3] n3].
  unfold final_hist in *. cbn in *. by subst.
Qed.

(** The curve of one run: a point per completed call, numbered from 0. *)
Definition run_curve (f : value * value * value -> value)
    (calls : list (dict * bool)) : list nat * list value :=
  let ts := completed_functionals calls in
  (seq 0 (length ts), map (fun t => np_real (f t)) ts).

(** X12: the figures of the combined file.  Whatever dictionaries the three
    optimisers hand to objCon, each figure shows three curves, for CONMIN,
    SLSQP and IPOPT in this order; a curve has one point for each call of
    that section's objCon that completed, at abscissae 0, 1, 2, ..., and its
    ordinates are the real parts of the drag coefficient (figure 1), of the
    lift less mycl (figure 2) and of the moment less mycm (figure 3), where
    the SLSQP curve of figure 3 shows the moment less mycl instead. *)
Theorem combo_figures (callsS callsC callsI : list (dict * bool)) :
  let h := combo_script callsS callsC callsI in
  figure1 h = [run_curve cd_of callsC; run_curve cd_of callsS;
               run_curve cd_of callsI] /\
  figure2 h = [run_curve (cl_residual Combo.CONMIN.mycl) callsC;
               run_curve (cl_residual Combo.SLSQP.mycl) callsS;
               run_curve (cl_residual Combo.IPOPT.mycl) callsI] /\
  figure3 h = [run_curve (cm_residual Combo.CONMIN.mycm) callsC;
               run_curve (cm_residual Combo.SLSQP.mycl) callsS;
               run_curve (cm_residual Combo.IPOPT.mycm) callsI].
Proof.
  cbn zeta. rewrite combo_script_appends.
  rewrite append_all_IPOPT, append_all_CONMIN, append_all_SLSQP.
  unfold figure1, figure2, figure3, curve, run_curve, np_arange.
  cbn [Combo.fc_cd_vals_CONMIN Combo.fc_cd_vals_SLSQP Combo.fc_cd_vals_IPOPT
       Combo.cl_con_vals_CONMIN Combo.cl_con_vals_SLSQP Combo.cl_con_vals_IPOPT
       Combo.cm_con_vals_CONMIN Combo.cm_con_vals_SLSQP Combo.cm_con_vals_IPOPT
       Combo.history0 app].
  rewrite !map_map, !length_map. done.
Qed.

(** ** The figure of [497project.py] *)

(** Lines 226-247: each buffer is plotted as it is against [np.arange] of
    its length: the objective, the lift residual and the moment residual. *)
Definition raw_curve (vals : list value) : list nat * list value :=
  (np_arange (length vals), vals).

Definition single_figure (h : Single.history) : list (list nat * list value) :=
  [raw_curve (Single.obj_vals_SLSQP h); raw_curve (Single.cl_con_vals_SLSQP h);
   raw_curve (Single.cm_con_vals_SLSQP h)].

(** X13: the figure of 497project.py.  Whatever dictionaries the optimiser
    hands to objCon, the three panels plot one point for each call that
    completed, at abscissae 0, 1, 2, ...: the drag coefficient, the lift less
    mycl and the moment less mycm of that call, taken as they are (no real
    part is taken here, unlike in the combined file). *)
Theorem single_figure_points (calls : list (dict * bool)) :
  let ts := completed_functionals calls in
  single_figure (final_hist (run_calls Single.objCon calls Single.history0 [])) =
    [ (seq 0 (length ts), map cd_of ts);
      (seq 0 (length ts), map (cl_residual Single.mycl) ts);
      (seq 0 (length ts), map (cm_residual Single.mycm) ts) ].
Proof.
  cbn zeta.
  after_run runs_in_key_order_Single append_all_Single calls Single.history0 (@nil event).
  unfold single_figure, raw_curve, np_arange. cbn. by rewrite !length_map.
Qed.

(** * The combined file with [ap[...]] looked up at run time *)

(** In the library, [ap[f]] is a lookup in a table of the aero problem,
    [funcNames], which the solver's [evalFunctions] fills as it stores each
    functional; a name not in the table raises [KeyError].  The library is
    not part of the scripts, so here the aero problem is a parameter: any
    name and any table. *)
Record AeroProblemObj : Type := mkAeroProblemObj {
  ap_name : string;
  funcNames : gmap string string
}.

(** [ap[f]] as a lookup in [funcNames]. *)
Definition ap_item {G} (p : AeroProblemObj) (f : string) : M (state G) string :=
  fun s => match funcNames p !! f with
           | Some key => (Return key, s)
           | None => (Raise (KeyError f), s)
           end.

(** The table after the solver has stored the functionals of [ap]: each
    name of [evalFuncs] under the key [ap_getitem] gives. *)
Definition ap_registered : AeroProblemObj :=
  {| ap_name := name ap;
     funcNames := list_to_map (map (fun f => (f, ap_getitem ap f)) (evalFuncs ap)) |}.

Module Lookup.
Section WithAp.
Variable p : AeroProblemObj.

(** Lines 143-156 of the combined file. *)
Definition objCon_SLSQP (printOK : bool) : M (state Combo.history) dict :=
  key ← ap_item p "cd";
  cd ← getitem key;
  setitem "obj" cd;;
  key ← ap_item p "cl";
  cl ← getitem key;
  setitem ("cl_con_" ++ ap_name p) (value_sub cl Combo.SLSQP.mycl);;
  key ← ap_item p "cm";
  cm ← getitem key;
  setitem ("cm_con_" ++ ap_name p) (value_sub cm Combo.SLSQP.mycl);;
  v ← getitem "obj";
  modify_hist (Combo.append_obj_vals_SLSQP v);;
  v ← getitem ("cl_con_" ++ ap_name p);
  modify_hist (Combo.append_cl_con_vals_SLSQP v);;
  v ← getitem ("cm_con_" ++ ap_name p);
  modify_hist (Combo.append_cm_con_vals_SLSQP v);;
  v ← getitem "fc_cd";
  modify_hist (Combo.append_fc_cd_vals_SLSQP v);;
  (if printOK
   then f ← the_funcs; print (PrintFuncs "funcs in obj:" f)
   else mret tt);;
  the_funcs.

(** Lines 344-357 of the combined file. *)
Definition objCon_CONMIN (printOK : bool) : M (state Combo.history) dict :=
  key ← ap_item p "cd";
  cd ← getitem key;
  setitem "obj" cd;;
  key ← ap_item p "cl";
  cl ← getitem key;
  setitem ("cl_con_" ++ ap_name p) (value_sub cl Combo.CONMIN.mycl);;
  key ← ap_item p "cm";
  cm ← getitem key;
  setitem ("cm_con_" ++ ap_name p) (value_sub cm Combo.CONMIN.mycm);;
  v ← getitem "obj";
  modify_hist (Combo.append_obj_vals_CONMIN v);;
  v ← getitem ("cl_con_" ++ ap_name p);
  modify_hist (Combo.append_cl_con_vals_CONMIN v);;
  v ← getitem ("cm_con_" ++ ap_name p);
  modify_hist (Combo.append_cm_con_vals_CONMIN v);;
  v ← getitem "fc_cd";
  modify_hist (Combo.append_fc_cd_vals_CONMIN v);;
  (if printOK
   then f ← the_funcs; print (PrintFuncs "funcs in obj:" f)
   else mret tt);;
  the_funcs.

(** Lines 540-553 of the combined file. *)
Definition objCon_IPOPT (printOK : bool) : M (state Combo.history) dict :=
  key ← ap_item p "cd";
  cd ← getitem key;
  setitem "obj" cd;;
  key ← ap_item p "cl";
  cl ← getitem key;
  setitem ("cl_con_" ++ ap_name p) (value_sub cl Combo.IPOPT.mycl);;
  key ← ap_item p "cm";
  cm ← getitem key;
  setitem ("cm_con_" ++ ap_name p) (value_sub cm Combo.IPOPT.mycm);;
  v ← getitem "obj";
  modify_hist (Combo.append_obj_vals_IPOPT v);;
  v ← getitem ("cl_con_" ++ ap_name p);
  modify_hist (Combo.append_cl_con_vals_IPOPT v);;
  v ← getitem ("cm_con_" ++ ap_name p);
  modify_hist (Combo.append_cm_con_vals_IPOPT v);;
  v ← getitem "fc_cd";
  modify_hist (Combo.append_fc_cd_vals_IPOPT v);;
  (if printOK
   then f ← the_funcs; print (PrintFuncs "funcs in obj:" f)
   else mret tt);;
  the_funcs.

End WithAp.
End Lookup.

(** With the table the solver leaves, the lookup gives the keys used so far
    and the three functions are the ones of [Combo]. *)
Lemma ap_item_registered {G} (f : string) :
  f ∈ evalFuncs ap -> @ap_item G ap_registered f = mret (ap_getitem ap f).
Proof.
  intros Hf. unfold ap_item, ap_registered, evalFuncs, ap in *. cbn [funcNames].
  apply elem_of_cons in Hf as [->|Hf]; [reflexivity|].
  apply elem_of_cons in Hf as [->|Hf]; [reflexivity|].
  apply elem_of_cons in Hf as [->|Hf]; [reflexivity|].
  by apply elem_of_nil in Hf.
Qed.

Lemma objCon_SLSQP_registered printOK s :
  Lookup.objCon_SLSQP ap_registered printOK s = Combo.SLSQP.objCon printOK s.
Proof.
  unfold Lookup.objCon_SLSQP, Combo.SLSQP.objCon.
  rewrite !ap_item_registered by (unfold evalFuncs, ap; set_solver).
  reflexivity.
Qed.

Lemma objCon_CONMIN_registered printOK s :
  Lookup.objCon_CONMIN ap_registered printOK s = Combo.CONMIN.objCon printOK s.
Proof.
  unfold Lookup.objCon_CONMIN, Combo.CONMIN.objCon.
  rewrite !ap_item_registered by (unfold evalFuncs, ap; set_solver).
  reflexivity.
Qed.

Lemma objCon_IPOPT_registered printOK s :
  Lookup.objCon_IPOPT ap_registered printOK s = Combo.IPOPT.objCon printOK s.
Proof.
  unfold Lookup.objCon_IPOPT, Combo.IPOPT.objCon.
  rewrite !ap_item_registered by (unfold evalFuncs, ap; set_solver).
  reflexivity.
Qed.

(** A call that fails on the read of ["fc_cd"] for the fourth buffer: the
    [KeyError] comes when the three other buffers have each gained their
    value, and the fourth has gained none. *)
Definition raises_after_three_appends
    (objCon : bool -> M (state Combo.history) dict)
    (obj_vals cl_con_vals cm_con_vals fc_cd_vals : Combo.history -> list value)
    (printOK : bool) (d : dict) (cd : value) : Prop :=
  forall (h : Combo.history) out,
    exists s' vl vm,
      objCon printOK (mkState d h out) = (Raise (KeyError "fc_cd"), s') /\
      obj_vals (hist s') = (obj_vals h ++ [cd])%list /\
      cl_con_vals (hist s') = (cl_con_vals h ++ [vl])%list /\
      cm_con_vals (hist s') = (cm_con_vals h ++ [vm])%list /\
      fc_cd_vals (hist s') = fc_cd_vals h /\
      length (obj_vals (hist s')) = S (length (obj_vals h)) /\
      length (fc_cd_vals (hist s')) = length (fc_cd_vals h).

Lemma lookup_insert_stays (d : dict) (key key' : string) (v : value) :
  is_Some (d !! key) -> is_Some (<[key' := v]> d !! key).
Proof.
  intros Hkey. apply lookup_insert_is_Some.
  destruct (decide (key' = key)); [by left|by right].
Qed.

Ltac fails_on_fc_cd Hncd Hncl Hncm Hcd Hcl Hcm Hnone :=
  let h := fresh "h" in
  let out := fresh "out" in
  let cl := fresh "cl" in
  let cm := fresh "cm" in
  let Hcl' := fresh "Hcl'" in
  let Hcm' := fresh "Hcm'" in
  intros h out;
  cbv [Lookup.objCon_SLSQP Lookup.objCon_CONMIN Lookup.objCon_IPOPT
       mbind M_bind mret M_ret bind ret ap_item getitem setitem modify_hist
       print the_funcs];
  cbn [funcs hist stdout];
  rewrite Hncd; cbn [funcs hist stdout]; rewrite Hcd; cbn [funcs hist stdout];
  rewrite Hncl; cbn [funcs hist stdout];
  match goal with
  | |- context [<["obj" := ?v]> ?m !! ?k] =>
      destruct (lookup_insert_stays m k "obj" v Hcl) as [cl Hcl']; rewrite Hcl'
  end;
  cbn [funcs hist stdout]; rewrite Hncm; cbn [funcs hist stdout];
  match goal with
  | |- context [<[?k' := ?v']> (<["obj" := ?v]> ?m) !! ?k] =>
      destruct (lookup_insert_stays (<["obj" := v]> m) k k' v'
                  (lookup_insert_stays m k "obj" v Hcm)) as [cm Hcm'];
      rewrite Hcm'
  end;
  cbn [funcs hist stdout];
  rewrite !(lookup_insert_ne _ _ "obj") by (cbn; discriminate);
  rewrite lookup_insert_eq; cbn [funcs hist stdout];
  rewrite (lookup_insert_ne _ ("cm_con_" ++ _)) by (cbn; discriminate);
  rewrite lookup_insert_eq; cbn [funcs hist stdout];
  rewrite lookup_insert_eq; cbn [funcs hist stdout];
  rewrite !(lookup_insert_ne _ _ "fc_cd") by (cbn; discriminate);
  rewrite Hnone;
  eexists _, _, _; split; [reflexivity|];
  cbn; rewrite length_app; cbn; repeat split; lia.

(** C10: in the combined file the buffer updates of objCon are not atomic
    on error.  With ap[...] looked up at run time, for every dictionary that
    holds the keys ap["cd"], ap["cl"] and ap["cm"] and lacks the key "fc_cd",
    each of the three objCon functions raises KeyError "fc_cd", and by then
    its obj, cl_con and cm_con buffers have each gained one value while its
    fc_cd buffer is unchanged, so the four buffers are no longer of equal
    length. *)
Theorem objCon_Combo_raises_after_three_appends
    (p : AeroProblemObj) (kcd kcl kcm : string)
    (printOK : bool) (d : dict) (cd : value) :
  funcNames p !! "cd" = Some kcd ->
  funcNames p !! "cl" = Some kcl ->
  funcNames p !! "cm" = Some kcm ->
  d !! kcd = Some cd -> is_Some (d !! kcl) -> is_Some (d !! kcm) ->
  d !! "fc_cd" = None ->
  raises_after_three_appends (Lookup.objCon_SLSQP p)
    Combo.obj_vals_SLSQP Combo.cl_con_vals_SLSQP Combo.cm_con_vals_SLSQP
    Combo.fc_cd_vals_SLSQP printOK d cd /\
  raises_after_three_appends (Lookup.objCon_CONMIN p)
    Combo.obj_vals_CONMIN Combo.cl_con_vals_CONMIN Combo.cm_con_vals_CONMIN
    Combo.fc_cd_vals_CONMIN printOK d cd /\
  raises_after_three_appends (Lookup.objCon_IPOPT p)
    Combo.obj_vals_IPOPT Combo.cl_con_vals_IPOPT Combo.cm_con_vals_IPOPT
    Combo.fc_cd_vals_IPOPT printOK d cd.
Proof.
  intros Hncd Hncl Hncm Hcd Hcl Hcm Hnone. split; [|split].
  - fails_on_fc_cd Hncd Hncl Hncm Hcd Hcl Hcm Hnone.
  - fails_on_fc_cd Hncd Hncl Hncm Hcd Hcl Hcm Hnone.
  - fails_on_fc_cd Hncd Hncl Hncm Hcd Hcl Hcm Hnone.
Qed.

(** An aero problem whose drag coefficient is registered under another key
    than ["fc_cd"], and a dictionary filled under its keys. *)
Definition ap_other_key : AeroProblemObj :=
  {| ap_name := "fc";
     funcNames := {[ "cd" := "fc_cdtotal"; "cl" := "fc_cl"; "cm" := "fc_cm" ]} |}.

Definition funcs_other_key : dict :=
  {[ "fc_cdtotal" := VFloat 0.01; "fc_cl" := VFloat 0.6; "fc_cm" := VFloat 0.03;
     "fail" := VBool false ]}.

Lemma objCon_Combo_raises_after_three_appends_witness :
  (funcNames ap_other_key !! "cd" = Some "fc_cdtotal" /\
   funcNames ap_other_key !! "cl" = Some "fc_cl" /\
   funcNames ap_other_key !! "cm" = Some "fc_cm" /\
   funcs_other_key !! "fc_cdtotal" = Some (VFloat 0.01) /\
   is_Some (funcs_other_key !! "fc_cl") /\
   is_Some (funcs_other_key !! "fc_cm") /\
   funcs_other_key !! "fc_cd" = None) /\
  raises_after_three_appends (Lookup.objCon_SLSQP ap_other_key)
    Combo.obj_vals_SLSQP Combo.cl_con_vals_SLSQP Combo.cm_con_vals_SLSQP
    Combo.fc_cd_vals_SLSQP true funcs_other_key (VFloat 0.01) /\
  raises_after_three_appends (Lookup.objCon_CONMIN ap_other_key)
    Combo.obj_vals_CONMIN Combo.cl_con_vals_CONMIN Combo.cm_con_vals_CONMIN
    Combo.fc_cd_vals_CONMIN true funcs_other_key (VFloat 0.01) /\
  raises_after_three_appends (Lookup.objCon_IPOPT ap_other_key)
    Combo.obj_vals_IPOPT Combo.cl_con_vals_IPOPT Combo.cm_con_vals_IPOPT
    Combo.fc_cd_vals_IPOPT true funcs_other_key (VFloat 0.01).
Proof.
  split.
  - repeat split; try reflexivity; by eexists.
  - apply (objCon_Combo_raises_after_three_appends ap_other_key
             "fc_cdtotal" "fc_cl" "fc_cm" true funcs_other_key (VFloat 0.01));
      try reflexivity; by eexists.
Defined.

(** The same call from the empty lists: the buffers of the CONMIN section
    end with lengths 1, 1, 1 and 0. *)
Example objCon_CONMIN_other_key_lengths :
  let r := Lookup.objCon_CONMIN ap_other_key false
             (mkState funcs_other_key Combo.history0 []) in
  r.1 = Raise (KeyError "fc_cd") /\
  map length (buffers_CONMIN (hist r.2)) = [1; 1; 1; 0].
Proof. split; vm_compute; reflexivity. Qed.
